(** * KuberBank ledger: the stored procedures of
      database/functions/001_banking_functions.sql, run against the tables,
      constraints and triggers of database/migrations/001_init_schema.sql,
      as database/scripts/init_db.sh installs them.

    Conventions of the embedding.
    - A DECIMAL(15,2) column or variable holds an integer counting cents
      ([money]: [10000.00] is [1000000]).  A function parameter declared
      DECIMAL(15,2) is a plain numeric, PostgreSQL dropping the (15,2) of a
      parameter: it is a rational ([numeric]), finite, and [to_decimal_15_2]
      is the cast that rounds it to cents and raises SQLSTATE 22003 when 13
      integral digits do not hold it, performed where the code stores the
      value in a column or assigns it to a DECIMAL(15,2) variable.
    - TIMESTAMP WITH TIME ZONE values are integers counting seconds.  [NOW()]
      is constant inside one call, so every procedure takes it as [now].
    - [uuid_generate_v4()] is an input of the call ([uuid]): the procedure
      cannot choose it.
    - A table is the list of its rows, oldest first.  Columns that no modelled
      statement reads or writes (currency, interest_rate, metadata, ...) are
      left out of the row records.  A column name that several tables share
      carries the table's prefix ([acc_id], [tx_id], [tx_status],
      [lim_amount], ...).  Columns are taken as NOT NULL except where a
      statement tests for NULL or inserts it (reset_at, closed_at,
      related_transaction_id, ...); arguments of a call are not NULL.
    - A PL/pgSQL body is a computation in the monad [M]: it threads the
      database and stops at the first error.  The database paired with an
      error is the one at the moment the error is raised; [atomically] is the
      rollback PostgreSQL performs when the calling statement fails.
    - An SQL statement of a PL/pgSQL body is analysed when control first
      reaches it, and a name in it that is both a column of a table of the
      statement and a variable of the function is an error then
      ([resolve_names]): plpgsql.variable_conflict has its default, error,
      no file of the repository setting it or carrying a #variable_conflict
      line. *)

From Stdlib Require Import ZArith QArith List String Ascii DecimalString Bool Lia.
Import ListNotations.
Local Open Scope string_scope.
Local Open Scope Z_scope.

(** ** Column types *)

Definition money := Z.
Definition timestamp := Z.
Definition uuid := Z.

(** The value of a numeric expression or parameter. *)
Definition numeric := Q.
Bind Scope Q_scope with numeric.

(** accounts.status CHECK (status IN ('active','frozen','closed','pending')) *)
Inductive account_status := active | frozen | closed | pending.

(** transactions.type CHECK (type IN (...)) *)
Inductive transaction_type :=
  deposit | withdrawal | transfer | fee | interest | refund.

(** transactions.status CHECK (status IN (...)) *)
Inductive transaction_status :=
  tx_pending | completed | failed | reversed | cancelled.

(** account_limits.limit_type CHECK (limit_type IN (...)) *)
Inductive limit_kind :=
  daily_withdrawal | daily_transfer | single_transaction | monthly_withdrawal.

(** account_limits.period CHECK (period IN (...)) *)
Inductive limit_period := daily | weekly | monthly | per_transaction.

(** JSONB values built by [jsonb_build_object]. *)
Inductive json :=
  JMoney (m : money) | JNumeric (x : numeric) | JTime (t : timestamp)
| JText (s : string).

Definition account_status_eqb (a b : account_status) : bool :=
  match a, b with
  | active, active | frozen, frozen | closed, closed | pending, pending => true
  | _, _ => false
  end.

Definition limit_kind_eqb (a b : limit_kind) : bool :=
  match a, b with
  | daily_withdrawal, daily_withdrawal | daily_transfer, daily_transfer
  | single_transaction, single_transaction
  | monthly_withdrawal, monthly_withdrawal => true
  | _, _ => false
  end.

Definition limit_period_eqb (a b : limit_period) : bool :=
  match a, b with
  | daily, daily | weekly, weekly | monthly, monthly
  | per_transaction, per_transaction => true
  | _, _ => false
  end.

(** ** Rows *)

Record account := {
  acc_id : Z;
  acc_user_id : Z;
  account_number : string;
  balance : money;
  acc_status : account_status;
  overdraft_limit : money;
  acc_updated_at : timestamp;
  closed_at : option timestamp;
  last_transaction_at : option timestamp
}.

Record transaction := {
  tx_id : Z;
  tx_account_id : Z;
  tx_type : transaction_type;
  tx_amount : money;
  balance_before : money;
  balance_after : money;
  tx_description : string;
  reference_number : uuid;
  tx_status : transaction_status;
  related_transaction_id : option Z;
  related_account_id : option Z;
  tx_ip_address : option string;
  tx_user_agent : option string;
  tx_created_at : timestamp;
  completed_at : option timestamp
}.

Record account_limit := {
  lim_account_id : Z;
  limit_type : limit_kind;
  lim_amount : money;
  period : limit_period;
  current_usage : money;
  reset_at : option timestamp
}.

Record audit_log := {
  al_user_id : option Z;
  al_account_id : Z;
  action : string;
  entity_type : string;
  entity_id : Z;
  old_values : list (string * json);
  new_values : list (string * json);
  al_metadata : list (string * json);
  al_created_at : timestamp
}.

(** The text of an alert is a [format] of a template with a monetary amount
    and an account number; the row keeps the two arguments. *)
Record alert := {
  alert_user_id : Z;
  alert_account_id : Z;
  alert_type : string;
  severity : string;
  title : string;
  message_amount : numeric;
  message_account : string
}.

(** ** The database *)

Record db := {
  accounts : list account;
  transactions : list transaction;
  account_limits : list account_limit;
  audit_logs : list audit_log;
  alerts : list alert;
  (** next value of the BIGSERIAL sequence behind transactions.id *)
  transactions_id_seq : Z;
  (** account rows locked by SELECT ... FOR UPDATE in the running
      transaction, in the order the locks were taken *)
  row_locks : list Z
}.

Definition with_accounts (rows : list account) (d : db) : db :=
  {| accounts := rows; transactions := transactions d;
     account_limits := account_limits d; audit_logs := audit_logs d;
     alerts := alerts d; transactions_id_seq := transactions_id_seq d;
     row_locks := row_locks d |}.

Definition with_account_limits (rows : list account_limit) (d : db) : db :=
  {| accounts := accounts d; transactions := transactions d;
     account_limits := rows; audit_logs := audit_logs d;
     alerts := alerts d; transactions_id_seq := transactions_id_seq d;
     row_locks := row_locks d |}.

Definition add_audit_logs (rows : list audit_log) (d : db) : db :=
  {| accounts := accounts d; transactions := transactions d;
     account_limits := account_limits d; audit_logs := audit_logs d ++ rows;
     alerts := alerts d; transactions_id_seq := transactions_id_seq d;
     row_locks := row_locks d |}.

Definition add_alerts (rows : list alert) (d : db) : db :=
  {| accounts := accounts d; transactions := transactions d;
     account_limits := account_limits d; audit_logs := audit_logs d;
     alerts := alerts d ++ rows; transactions_id_seq := transactions_id_seq d;
     row_locks := row_locks d |}.

Definition add_transaction (row : transaction) (d : db) : db :=
  {| accounts := accounts d; transactions := transactions d ++ [row];
     account_limits := account_limits d; audit_logs := audit_logs d;
     alerts := alerts d; transactions_id_seq := transactions_id_seq d;
     row_locks := row_locks d |}.

Definition with_transactions_id_seq (next : Z) (d : db) : db :=
  {| accounts := accounts d; transactions := transactions d;
     account_limits := account_limits d; audit_logs := audit_logs d;
     alerts := alerts d; transactions_id_seq := next;
     row_locks := row_locks d |}.

Definition add_row_lock (id : Z) (d : db) : db :=
  {| accounts := accounts d; transactions := transactions d;
     account_limits := account_limits d; audit_logs := audit_logs d;
     alerts := alerts d; transactions_id_seq := transactions_id_seq d;
     row_locks := row_locks d ++ [id] |}.

Definition release_row_locks (d : db) : db :=
  {| accounts := accounts d; transactions := transactions d;
     account_limits := account_limits d; audit_logs := audit_logs d;
     alerts := alerts d; transactions_id_seq := transactions_id_seq d;
     row_locks := [] |}.

(** ** Errors and the procedure monad *)

(** One constructor per RAISE EXCEPTION of the procedures and triggers, named
    after the failure kind it reports, and one per error a statement can
    run into. *)
Inductive error :=
| AccountNotFound        (* 'Account not found or inactive', 'Source account
                            not found', 'Destination account not found',
                            'Account not found or already closed',
                            'Account not found' *)
| InvalidAmount          (* '... amount must be positive' *)
| InsufficientFunds      (* 'Insufficient funds. ...', 'Insufficient funds
                            for transfer. ...' *)
| LimitExceeded          (* 'Daily withdrawal limit exceeded. ...' *)
| SelfTransfer           (* 'Cannot transfer to the same account' *)
| NonZeroBalance         (* 'Cannot close account with non-zero balance' *)
| TriggerInsufficientFunds (* validate_transaction_amount:
                              'Insufficient funds: balance=...' *)
| AmbiguousColumn (name : string)
                         (* SQLSTATE 42702, 'column reference ... is
                            ambiguous': it could refer to either a PL/pgSQL
                            variable or a table column *)
| NumericOverflow        (* SQLSTATE 22003, 'numeric field overflow' *)
| StringTooLong          (* SQLSTATE 22001, 'value too long for type
                            character varying(n)' *)
| UserNotFound           (* 'User ID % does not exist' *)
| NegativeInitialBalance (* 'Initial balance cannot be negative' *)
| CheckViolation (constraint : string)
| UniqueViolation (constraint : string).

Inductive result (A : Type) :=
| Ok (a : A)
| Err (e : error).
Arguments Ok {A} a.
Arguments Err {A} e.

Definition M (A : Type) : Type := db -> result A * db.

Definition ret {A} (a : A) : M A := fun d => (Ok a, d).
Definition raise {A} (e : error) : M A := fun d => (Err e, d).
Definition bind {A B} (m : M A) (k : A -> M B) : M B :=
  fun d => match m d with
           | (Ok a, d') => k a d'
           | (Err e, d') => (Err e, d')
           end.
Definition get : M db := fun d => (Ok d, d).
Definition modify (f : db -> db) : M unit := fun d => (Ok tt, f d).

Notation "x <- m ;; k" := (bind m (fun x => k))
  (at level 61, m at next level, right associativity).
Notation "m ;; k" := (bind m (fun _ => k))
  (at level 61, right associativity).

(** What a failed statement leaves of the database [d] it started from:
    every write is undone, but a value drawn from a sequence is not given
    back ([failed] is the database at the error). *)
Definition rolled_back (d failed : db) : db :=
  with_transactions_id_seq (transactions_id_seq failed) d.

(** A statement that calls a procedure is atomic: when the procedure raises,
    every write it made is undone.  Row locks are released when the
    transaction ends, either way. *)
Definition atomically {A} (m : M A) : M A :=
  fun d => match m d with
           | (Ok a, d') => (Ok a, release_row_locks d')
           | (Err e, d') => (Err e, release_row_locks (rolled_back d d'))
           end.

(** ** Names in the SQL statements of a PL/pgSQL body *)

(** The columns of the tables the statements name, in the order of the
    CREATE TABLE. *)
Definition accounts_columns : list string :=
  ["id"; "user_id"; "account_number"; "account_type"; "balance"; "currency";
   "status"; "overdraft_limit"; "interest_rate"; "created_at"; "updated_at";
   "closed_at"; "last_transaction_at"].

Definition transactions_columns : list string :=
  ["id"; "account_id"; "type"; "amount"; "balance_before"; "balance_after";
   "description"; "reference_number"; "status"; "related_transaction_id";
   "related_account_id"; "metadata"; "ip_address"; "user_agent";
   "created_at"; "completed_at"; "failed_at"; "failure_reason"].

Definition account_limits_columns : list string :=
  ["id"; "account_id"; "limit_type"; "amount"; "period"; "current_usage";
   "reset_at"; "created_at"; "updated_at"].

Definition users_columns : list string :=
  ["id"; "first_name"; "last_name"; "email"; "phone"; "date_of_birth";
   "address"; "city"; "state"; "zip_code"; "country"; "created_at";
   "updated_at"; "deleted_at"].

Definition is_name (x : string) (names : list string) : bool :=
  existsb (String.eqb x) names.

(** The analysis of one SQL statement.  [variables] are the names PL/pgSQL
    knows in the function: its parameters, the columns of its RETURNS TABLE
    and its DECLAREd variables.  [columns] are the columns of the table the
    statement reads or updates.  [names] are the unqualified names of the
    statement, in the order of its text, at the places where those columns
    are visible: select list, WHERE, right-hand sides of SET, RETURNING.
    (The column list and the VALUES of an INSERT are not such places, nor is
    the INTO list.)  A name that is both a variable and a column is
    rejected. *)
Definition resolve_names (variables columns names : list string) : M unit :=
  match find (fun x => is_name x variables && is_name x columns) names with
  | Some x => raise (AmbiguousColumn x)
  | None => ret tt
  end.

(** ** Numeric values *)

(** The numeric value of a DECIMAL(15,2). *)
Definition of_money (m : money) : numeric := m # 100.

Definition numeric_leb (x y : numeric) : bool := Qle_bool x y.
Definition numeric_ltb (x y : numeric) : bool := negb (Qle_bool y x).

(** The number of cents nearest to [x], a tie going away from zero. *)
Definition round_cents (x : numeric) : Z :=
  let n := Qnum x * 100 in
  let k := Z.pos (Qden x) in
  Z.sgn n * ((2 * Z.abs n + k) / (2 * k)).

(** The cast to DECIMAL(15,2). *)
Definition to_decimal_15_2 (x : numeric) : M money :=
  let c := round_cents x in
  if Z.abs c <? 10 ^ 15 then ret c else raise NumericOverflow.

(** ** Triggers and constraints of 001_init_schema.sql *)

(** BEFORE UPDATE ON accounts: update_updated_at_column *)
Definition update_updated_at_column (now : timestamp) (new : account) : account :=
  {| acc_id := acc_id new; acc_user_id := acc_user_id new;
     account_number := account_number new; balance := balance new;
     acc_status := acc_status new; overdraft_limit := overdraft_limit new;
     acc_updated_at := now; closed_at := closed_at new;
     last_transaction_at := last_transaction_at new |}.

(** CONSTRAINT positive_balance CHECK (balance >= -overdraft_limit) *)
Definition positive_balance (a : account) : bool :=
  - overdraft_limit a <=? balance a.

(** CONSTRAINT positive_amount CHECK (amount > 0) *)
Definition positive_amount (t : transaction) : bool := 0 <? tx_amount t.

(** AFTER UPDATE ON accounts: log_balance_change, the audit rows it inserts
    for one updated row. *)
Definition log_balance_change (now : timestamp) (old new : account)
  : list audit_log :=
  if balance old =? balance new then []
  else [ {| al_user_id := None;
            al_account_id := acc_id new;
            action := "balance_change";
            entity_type := "account";
            entity_id := acc_id new;
            old_values := [("balance", JMoney (balance old));
                           ("updated_at", JTime (acc_updated_at old))];
            new_values := [("balance", JMoney (balance new));
                           ("updated_at", JTime (acc_updated_at new))];
            al_metadata := [];
            al_created_at := now |} ].

(** [UPDATE accounts SET ... WHERE ...]: every row that satisfies [where_] is
    replaced by [set_ row], stamped by the BEFORE trigger and checked against
    positive_balance; the AFTER trigger then logs the balance changes.  The
    value is ROW_COUNT.  A violated CHECK fails the statement as a whole. *)
Definition update_accounts (now : timestamp) (where_ : account -> bool)
    (set_ : account -> account) : M Z :=
  fun d =>
    let new_row a := update_updated_at_column now (set_ a) in
    let hit := filter where_ (accounts d) in
    if forallb (fun a => positive_balance (new_row a)) hit then
      (Ok (Z.of_nat (List.length hit)),
       add_audit_logs
         (flat_map (fun a => log_balance_change now a (new_row a)) hit)
         (with_accounts
            (map (fun a => if where_ a then new_row a else a) (accounts d)) d))
    else (Err (CheckViolation "positive_balance"), d).

(** The variables validate_transaction_amount DECLAREs.  (NEW, OLD and the
    TG_ variables, which every trigger function has besides, and FOUND,
    which every function has, are no column names.) *)
Definition validate_transaction_amount_variables : list string :=
  ["current_balance"; "overdraft_limit"].

(** BEFORE INSERT ON transactions: validate_transaction_amount.  Its SELECT
    reads the column overdraft_limit into the variable overdraft_limit. *)
Definition validate_transaction_amount (new : transaction) : M unit :=
  match tx_type new with
  | withdrawal | transfer =>
      resolve_names validate_transaction_amount_variables accounts_columns
        ["balance"; "overdraft_limit"; "id"] ;;
      d <- get ;;
      match find (fun a => acc_id a =? tx_account_id new) (accounts d) with
      | Some a =>
          if balance a - tx_amount new <? - overdraft_limit a
          then raise TriggerInsufficientFunds
          else ret tt
      | None => ret tt
      end
  | _ => ret tt
  end.

Definition set_last_transaction_at (t : option timestamp) (a : account)
  : account :=
  {| acc_id := acc_id a; acc_user_id := acc_user_id a;
     account_number := account_number a; balance := balance a;
     acc_status := acc_status a; overdraft_limit := overdraft_limit a;
     acc_updated_at := acc_updated_at a; closed_at := closed_at a;
     last_transaction_at := t |}.

(** AFTER INSERT OR UPDATE ON transactions: update_last_transaction, on the
    INSERT of [new]. *)
Definition update_last_transaction (now : timestamp) (new : transaction)
  : M unit :=
  match tx_status new with
  | completed =>
      _ <- update_accounts now (fun a => acc_id a =? tx_account_id new)
             (set_last_transaction_at (completed_at new)) ;;
      ret tt
  | _ => ret tt
  end.

(** ** The statements of the procedures *)

(** The VALUES of an [INSERT INTO transactions]: an amount is the value of
    the expression the statement gives, cast to the column's DECIMAL(15,2)
    when the row is formed. *)
Record transaction_values := {
  ins_account_id : Z;
  ins_type : transaction_type;
  ins_amount : numeric;
  ins_balance_before : numeric;
  ins_balance_after : numeric;
  ins_description : string;
  ins_reference_number : uuid;
  ins_status : transaction_status;
  ins_related_transaction_id : option Z;
  ins_related_account_id : option Z;
  ins_ip_address : option string;
  ins_user_agent : option string;
  ins_created_at : timestamp;
  ins_completed_at : option timestamp
}.

(** nextval('transactions_id_seq') *)
Definition next_transaction_id : M Z :=
  d <- get ;;
  modify (with_transactions_id_seq (transactions_id_seq d + 1)) ;;
  ret (transactions_id_seq d).

(** [INSERT INTO transactions (...) VALUES (...) RETURNING id]: the row is
    formed column by column (the id drawn from the sequence, the amounts
    cast), handed to the BEFORE trigger, checked against positive_amount and
    the UNIQUE index on reference_number, stored, and handed to the AFTER
    trigger.  The foreign keys are not checked: every id the procedures
    insert was read from accounts or returned by an earlier insert in the
    same call. *)
Definition insert_transaction (now : timestamp) (v : transaction_values)
  : M Z :=
  id <- next_transaction_id ;;
  amount <- to_decimal_15_2 (ins_amount v) ;;
  before <- to_decimal_15_2 (ins_balance_before v) ;;
  after <- to_decimal_15_2 (ins_balance_after v) ;;
  let new :=
    {| tx_id := id; tx_account_id := ins_account_id v;
       tx_type := ins_type v; tx_amount := amount;
       balance_before := before; balance_after := after;
       tx_description := ins_description v;
       reference_number := ins_reference_number v;
       tx_status := ins_status v;
       related_transaction_id := ins_related_transaction_id v;
       related_account_id := ins_related_account_id v;
       tx_ip_address := ins_ip_address v;
       tx_user_agent := ins_user_agent v;
       tx_created_at := ins_created_at v;
       completed_at := ins_completed_at v |} in
  validate_transaction_amount new ;;
  d <- get ;;
  if negb (positive_amount new) then raise (CheckViolation "positive_amount")
  else if existsb (fun t => reference_number t =? reference_number new)
            (transactions d)
  then raise (UniqueViolation "transactions_reference_number_key")
  else
    modify (add_transaction new) ;;
    update_last_transaction now new ;;
    ret id.

(** [SELECT ... FROM accounts WHERE account_number = p AND status = 'active'] *)
Definition is_active_account (p_account_number : string) (a : account) : bool :=
  (account_number a =? p_account_number)%string
  && account_status_eqb (acc_status a) active.

Definition select_active_account (p_account_number : string)
  : M (option account) :=
  d <- get ;;
  ret (find (is_active_account p_account_number) (accounts d)).

(** The same query with FOR UPDATE: the row it returns is locked. *)
Definition select_active_account_for_update (p_account_number : string)
  : M (option account) :=
  r <- select_active_account p_account_number ;;
  match r with
  | Some a => modify (add_row_lock (acc_id a)) ;; ret r
  | None => ret r
  end.

Definition set_balance (b : money) (t : timestamp) (a : account) : account :=
  {| acc_id := acc_id a; acc_user_id := acc_user_id a;
     account_number := account_number a; balance := b;
     acc_status := acc_status a; overdraft_limit := overdraft_limit a;
     acc_updated_at := acc_updated_at a; closed_at := closed_at a;
     last_transaction_at := Some t |}.

(** [INSERT INTO alerts (...) SELECT user_id, v_account_id, ... FROM accounts
    WHERE id = v_account_id] *)
Definition alert_rows (v_account_id : Z) (type_ severity_ title_ : string)
    (amount : numeric) (number : string) (d : db) : list alert :=
  map (fun a => {| alert_user_id := acc_user_id a;
                   alert_account_id := v_account_id;
                   alert_type := type_; severity := severity_;
                   title := title_; message_amount := amount;
                   message_account := number |})
      (filter (fun a => acc_id a =? v_account_id) (accounts d)).

Definition insert_alert (v_account_id : Z) (type_ severity_ title_ : string)
    (amount : numeric) (number : string) : M unit :=
  d <- get ;;
  modify (add_alerts
            (alert_rows v_account_id type_ severity_ title_ amount number d)).

(** What process_deposit and process_withdrawal return. *)
Record receipt := {
  transaction_id : Z;
  new_balance : money;
  receipt_reference : uuid;
  receipt_status : string
}.

(** *** process_deposit *)

(** Parameters, RETURNS TABLE columns and DECLAREd variables. *)
Definition process_deposit_variables : list string :=
  ["p_account_number"; "p_amount"; "p_description"; "p_ip_address";
   "p_user_agent";
   "transaction_id"; "new_balance"; "reference_number"; "status";
   "v_account_id"; "v_current_balance"; "v_new_balance"; "v_transaction_id";
   "v_reference"].

(** Lines 64-73: the alert for a large deposit. *)
Definition large_deposit_alert (v_account_id : Z) (p_amount : numeric)
    (p_account_number : string) : M unit :=
  if numeric_ltb 10000 p_amount
  then
    resolve_names process_deposit_variables accounts_columns
      ["user_id"; "v_account_id"; "p_amount"; "p_account_number"; "id";
       "v_account_id"] ;;
    insert_alert v_account_id "large_transaction" "info" "Large Deposit"
      p_amount p_account_number
  else ret tt.

Definition process_deposit (now : timestamp) (uuid_ : uuid)
    (p_account_number : string) (p_amount : numeric) (p_description : string)
    (p_ip_address p_user_agent : option string) : M receipt :=
  resolve_names process_deposit_variables accounts_columns
    ["id"; "balance"; "account_number"; "p_account_number"; "status"] ;;
  r <- select_active_account p_account_number ;;
  match r with
  | None => raise AccountNotFound
  | Some a =>
    let v_account_id := acc_id a in
    let v_current_balance := balance a in
    if numeric_leb p_amount 0 then raise InvalidAmount
    else
      v_new_balance <-
        to_decimal_15_2 (of_money v_current_balance + p_amount)%Q ;;
      resolve_names process_deposit_variables transactions_columns
        ["id"; "reference_number"] ;;
      v_transaction_id <- insert_transaction now
        {| ins_account_id := v_account_id; ins_type := deposit;
           ins_amount := p_amount;
           ins_balance_before := of_money v_current_balance;
           ins_balance_after := of_money v_new_balance;
           ins_description := p_description;
           ins_reference_number := uuid_; ins_status := completed;
           ins_related_transaction_id := None;
           ins_related_account_id := None;
           ins_ip_address := p_ip_address; ins_user_agent := p_user_agent;
           ins_created_at := now; ins_completed_at := Some now |} ;;
      resolve_names process_deposit_variables accounts_columns
        ["v_new_balance"; "id"; "v_account_id"] ;;
      update_accounts now (fun r => acc_id r =? v_account_id)
        (set_balance v_new_balance now) ;;
      large_deposit_alert v_account_id p_amount p_account_number ;;
      ret {| transaction_id := v_transaction_id;
             new_balance := v_new_balance;
             receipt_reference := uuid_;
             receipt_status := "completed" |}
  end.

(** *** process_withdrawal *)

Definition process_withdrawal_variables : list string :=
  ["p_account_number"; "p_amount"; "p_description"; "p_ip_address";
   "p_user_agent";
   "transaction_id"; "new_balance"; "reference_number"; "status";
   "v_account_id"; "v_current_balance"; "v_overdraft_limit"; "v_new_balance";
   "v_transaction_id"; "v_reference"; "v_daily_limit"; "v_daily_usage"].

(** [SELECT amount, current_usage INTO ... FROM account_limits WHERE
    account_id = v AND limit_type = 'daily_withdrawal' AND (reset_at IS NULL
    OR reset_at > NOW())]: the first row, if any (FOUND). *)
Definition is_open_daily_withdrawal (now : timestamp) (v_account_id : Z)
    (l : account_limit) : bool :=
  (lim_account_id l =? v_account_id)
  && limit_kind_eqb (limit_type l) daily_withdrawal
  && match reset_at l with
     | None => true
     | Some t => now <? t
     end.

Definition with_usage (usage : money) (l : account_limit) : account_limit :=
  {| lim_account_id := lim_account_id l; limit_type := limit_type l;
     lim_amount := lim_amount l; period := period l;
     current_usage := usage; reset_at := reset_at l |}.

(** The rows of an [UPDATE account_limits SET current_usage = current_usage
    + p_amount WHERE account_id = v AND limit_type = 'daily_withdrawal'],
    the new usage cast to the column's type. *)
Fixpoint add_daily_usage (v_account_id : Z) (p_amount : numeric)
    (rows : list account_limit) : M (list account_limit) :=
  match rows with
  | [] => ret []
  | l :: rows' =>
      l' <- (if (lim_account_id l =? v_account_id)
                && limit_kind_eqb (limit_type l) daily_withdrawal
             then
               usage <- to_decimal_15_2
                          (of_money (current_usage l) + p_amount)%Q ;;
               ret (with_usage usage l)
             else ret l) ;;
      rest <- add_daily_usage v_account_id p_amount rows' ;;
      ret (l' :: rest)
  end.

(** The migration names a trigger function for account_limits that no file
    defines, so the CREATE TRIGGER fails and no trigger runs here. *)
Definition update_daily_usage (v_account_id : Z) (p_amount : numeric)
  : M unit :=
  d <- get ;;
  rows <- add_daily_usage v_account_id p_amount (account_limits d) ;;
  modify (with_account_limits rows).

(** Lines 160-169: the alert for a low balance. *)
Definition low_balance_alert (v_account_id : Z) (v_new_balance : money)
    (p_account_number : string) : M unit :=
  if numeric_ltb (of_money v_new_balance) 100
  then
    resolve_names process_withdrawal_variables accounts_columns
      ["user_id"; "v_account_id"; "p_account_number"; "v_new_balance"; "id";
       "v_account_id"] ;;
    insert_alert v_account_id "low_balance" "warning" "Low Balance Alert"
      (of_money v_new_balance) p_account_number
  else ret tt.

Definition process_withdrawal (now : timestamp) (uuid_ : uuid)
    (p_account_number : string) (p_amount : numeric) (p_description : string)
    (p_ip_address p_user_agent : option string) : M receipt :=
  resolve_names process_withdrawal_variables accounts_columns
    ["id"; "balance"; "overdraft_limit"; "account_number";
     "p_account_number"; "status"] ;;
  r <- select_active_account p_account_number ;;
  match r with
  | None => raise AccountNotFound
  | Some a =>
    let v_account_id := acc_id a in
    let v_current_balance := balance a in
    let v_overdraft_limit := overdraft_limit a in
    if numeric_leb p_amount 0 then raise InvalidAmount
    else if numeric_ltb (of_money v_current_balance - p_amount)%Q
              (- of_money v_overdraft_limit)%Q
    then raise InsufficientFunds
    else
      resolve_names process_withdrawal_variables account_limits_columns
        ["amount"; "current_usage"; "account_id"; "v_account_id";
         "limit_type"; "reset_at"; "reset_at"] ;;
      d <- get ;;
      match find (is_open_daily_withdrawal now v_account_id)
              (account_limits d) with
      | Some l =>
          if numeric_ltb (of_money (lim_amount l))
               (of_money (current_usage l) + p_amount)%Q
          then raise LimitExceeded else ret tt
      | None => ret tt
      end ;;
      v_new_balance <-
        to_decimal_15_2 (of_money v_current_balance - p_amount)%Q ;;
      resolve_names process_withdrawal_variables transactions_columns
        ["id"; "reference_number"] ;;
      v_transaction_id <- insert_transaction now
        {| ins_account_id := v_account_id; ins_type := withdrawal;
           ins_amount := p_amount;
           ins_balance_before := of_money v_current_balance;
           ins_balance_after := of_money v_new_balance;
           ins_description := p_description;
           ins_reference_number := uuid_; ins_status := completed;
           ins_related_transaction_id := None;
           ins_related_account_id := None;
           ins_ip_address := p_ip_address; ins_user_agent := p_user_agent;
           ins_created_at := now; ins_completed_at := Some now |} ;;
      resolve_names process_withdrawal_variables accounts_columns
        ["v_new_balance"; "id"; "v_account_id"] ;;
      update_accounts now (fun r => acc_id r =? v_account_id)
        (set_balance v_new_balance now) ;;
      resolve_names process_withdrawal_variables account_limits_columns
        ["current_usage"; "p_amount"; "account_id"; "v_account_id";
         "limit_type"] ;;
      update_daily_usage v_account_id p_amount ;;
      low_balance_alert v_account_id v_new_balance p_account_number ;;
      ret {| transaction_id := v_transaction_id;
             new_balance := v_new_balance;
             receipt_reference := uuid_;
             receipt_status := "completed" |}
  end.

(** What process_transfer returns. *)
Record transfer_receipt := {
  from_transaction_id : Z;
  to_transaction_id : Z;
  from_balance : money;
  to_balance : money;
  transfer_reference : uuid;
  transfer_status : string
}.

(** *** process_transfer *)

Definition process_transfer_variables : list string :=
  ["p_from_account"; "p_to_account"; "p_amount"; "p_description";
   "p_ip_address"; "p_user_agent";
   "from_transaction_id"; "to_transaction_id"; "from_balance"; "to_balance";
   "reference_number"; "status";
   "v_from_account_id"; "v_to_account_id"; "v_from_balance"; "v_to_balance";
   "v_from_new_balance"; "v_to_new_balance"; "v_from_tx_id"; "v_to_tx_id";
   "v_reference"].

Definition process_transfer (now : timestamp) (uuid_ : uuid)
    (p_from_account p_to_account : string) (p_amount : numeric)
    (p_description : string) (p_ip_address p_user_agent : option string)
  : M transfer_receipt :=
  if (p_from_account =? p_to_account)%string then raise SelfTransfer
  else if numeric_leb p_amount 0 then raise InvalidAmount
  else
    resolve_names process_transfer_variables accounts_columns
      ["id"; "balance"; "account_number"; "p_from_account"; "status"] ;;
    rf <- select_active_account_for_update p_from_account ;;
    resolve_names process_transfer_variables accounts_columns
      ["id"; "balance"; "account_number"; "p_to_account"; "status"] ;;
    rt <- select_active_account_for_update p_to_account ;;
    match rf with
    | None => raise AccountNotFound
    | Some f =>
      match rt with
      | None => raise AccountNotFound
      | Some t =>
        let v_from_account_id := acc_id f in
        let v_from_balance := balance f in
        let v_to_account_id := acc_id t in
        let v_to_balance := balance t in
        if numeric_ltb (of_money v_from_balance) p_amount
        then raise InsufficientFunds
        else
          let v_reference := uuid_ in
          v_from_new_balance <-
            to_decimal_15_2 (of_money v_from_balance - p_amount)%Q ;;
          v_to_new_balance <-
            to_decimal_15_2 (of_money v_to_balance + p_amount)%Q ;;
          resolve_names process_transfer_variables transactions_columns
            ["id"] ;;
          v_from_tx_id <- insert_transaction now
            {| ins_account_id := v_from_account_id; ins_type := withdrawal;
               ins_amount := p_amount;
               ins_balance_before := of_money v_from_balance;
               ins_balance_after := of_money v_from_new_balance;
               ins_description :=
                 ("Transfer to " ++ p_to_account ++ ": " ++ p_description)%string;
               ins_reference_number := v_reference; ins_status := completed;
               ins_related_transaction_id := None;
               ins_related_account_id := Some v_to_account_id;
               ins_ip_address := p_ip_address;
               ins_user_agent := p_user_agent;
               ins_created_at := now; ins_completed_at := Some now |} ;;
          resolve_names process_transfer_variables transactions_columns
            ["id"] ;;
          v_to_tx_id <- insert_transaction now
            {| ins_account_id := v_to_account_id; ins_type := deposit;
               ins_amount := p_amount;
               ins_balance_before := of_money v_to_balance;
               ins_balance_after := of_money v_to_new_balance;
               ins_description :=
                 ("Transfer from " ++ p_from_account ++ ": "
                    ++ p_description)%string;
               ins_reference_number := v_reference; ins_status := completed;
               ins_related_transaction_id := Some v_from_tx_id;
               ins_related_account_id := Some v_from_account_id;
               ins_ip_address := p_ip_address;
               ins_user_agent := p_user_agent;
               ins_created_at := now; ins_completed_at := Some now |} ;;
          resolve_names process_transfer_variables accounts_columns
            ["v_from_new_balance"; "id"; "v_from_account_id"] ;;
          update_accounts now (fun r => acc_id r =? v_from_account_id)
            (set_balance v_from_new_balance now) ;;
          resolve_names process_transfer_variables accounts_columns
            ["v_to_new_balance"; "id"; "v_to_account_id"] ;;
          update_accounts now (fun r => acc_id r =? v_to_account_id)
            (set_balance v_to_new_balance now) ;;
          resolve_names process_transfer_variables accounts_columns
            ["user_id"; "v_to_account_id"; "p_amount"; "p_from_account";
             "id"; "v_to_account_id"] ;;
          insert_alert v_to_account_id "transfer_received" "info"
            "Transfer Received" p_amount p_from_account ;;
          ret {| from_transaction_id := v_from_tx_id;
                 to_transaction_id := v_to_tx_id;
                 from_balance := v_from_new_balance;
                 to_balance := v_to_new_balance;
                 transfer_reference := v_reference;
                 transfer_status := "completed" |}
      end
    end.

Definition set_closed (now : timestamp) (a : account) : account :=
  {| acc_id := acc_id a; acc_user_id := acc_user_id a;
     account_number := account_number a; balance := balance a;
     acc_status := closed; overdraft_limit := overdraft_limit a;
     acc_updated_at := acc_updated_at a; closed_at := Some now;
     last_transaction_at := last_transaction_at a |}.

(** *** close_account *)

(** No variable of close_account, and none of reset_daily_limits ([v_count]),
    is the name of a column. *)
Definition close_account_variables : list string :=
  ["p_account_number"; "p_reason"; "v_account_id"; "v_balance"; "v_user_id"].

Definition close_account (now : timestamp) (p_account_number : string)
    (p_reason : string) : M bool :=
  r <- select_active_account p_account_number ;;
  match r with
  | None => raise AccountNotFound
  | Some a =>
    let v_account_id := acc_id a in
    let v_balance := balance a in
    let v_user_id := acc_user_id a in
    if negb (v_balance =? 0) then raise NonZeroBalance
    else
      update_accounts now (fun r => acc_id r =? v_account_id)
        (set_closed now) ;;
      modify (add_audit_logs
        [ {| al_user_id := Some v_user_id; al_account_id := v_account_id;
             action := "account_closed"; entity_type := "account";
             entity_id := v_account_id;
             old_values := [("status", JText "active")];
             new_values := [("status", JText "closed");
                            ("closed_at", JTime now)];
             al_metadata := [("reason", JText p_reason)];
             al_created_at := now |} ]) ;;
      ret true
  end.

(** INTERVAL '1 day', in seconds. *)
Definition one_day : Z := 86400.

(** WHERE period = 'daily' AND (reset_at IS NULL OR reset_at <= NOW()) *)
Definition is_due_daily (now : timestamp) (l : account_limit) : bool :=
  limit_period_eqb (period l) daily
  && match reset_at l with
     | None => true
     | Some t => t <=? now
     end.

Definition reset_limit (now : timestamp) (l : account_limit) : account_limit :=
  {| lim_account_id := lim_account_id l; limit_type := limit_type l;
     lim_amount := lim_amount l; period := period l;
     current_usage := 0; reset_at := Some (now + one_day) |}.

(** *** reset_daily_limits: the UPDATE and its ROW_COUNT *)
Definition reset_daily_limits (now : timestamp) : M Z :=
  d <- get ;;
  modify (with_account_limits
    (map (fun l => if is_due_daily now l then reset_limit now l else l)
         (account_limits d))) ;;
  ret (Z.of_nat (List.length (filter (is_due_daily now) (account_limits d)))).

(** ** Observations on a database *)



(** accounts.id is the PRIMARY KEY. *)
Definition primary_key (d : db) : Prop := NoDup (map acc_id (accounts d)).

(** Every stored account row satisfies CONSTRAINT positive_balance. *)
Definition balances_checked (d : db) : Prop :=
  forall a, In a (accounts d) -> - overdraft_limit a <= balance a.

(** The database states PostgreSQL can hold under the migration's
    constraints on accounts. *)
Definition consistent (d : db) : Prop := primary_key d /\ balances_checked d.

Definition closed_audit (now : timestamp) (a : account) (p_reason : string)
  : audit_log :=
  {| al_user_id := Some (acc_user_id a); al_account_id := acc_id a;
     action := "account_closed"; entity_type := "account";
     entity_id := acc_id a;
     old_values := [("status", JText "active")];
     new_values := [("status", JText "closed"); ("closed_at", JTime now)];
     al_metadata := [("reason", JText p_reason)];
     al_created_at := now |}.

(** The database closing the account row [a] leaves. *)
Definition closed_db (now : timestamp) (a : account) (p_reason : string)
    (d : db) : db :=
  add_audit_logs [closed_audit now a p_reason]
    (with_accounts
       (map (fun r => if acc_id r =? acc_id a
                      then update_updated_at_column now (set_closed now r)
                      else r) (accounts d)) d).

(** The balance of the active account with a given number, if there is one. *)
Definition active_balance (n : string) (d : db) : option money :=
  option_map balance (find (is_active_account n) (accounts d)).


(** The tables of [d'] are those of [d]. *)
Definition same_tables (d d' : db) : Prop :=
  accounts d' = accounts d /\ transactions d' = transactions d
  /\ account_limits d' = account_limits d /\ audit_logs d' = audit_logs d
  /\ alerts d' = alerts d.

(** *** Conditions the properties speak of *)

(** The rows reset_daily_limits updates: period 'daily', and reset_at NULL
    or not after [now]. *)
Definition due_daily (now : timestamp) (l : account_limit) : Prop :=
  period l = daily
  /\ (reset_at l = None \/ exists t, reset_at l = Some t /\ t <= now).

(** Every Limit Entry is within its cap. *)
Definition within_caps (d : db) : Prop :=
  forall l, In l (account_limits d) -> current_usage l <= lim_amount l.



(** *** Sample data *)

(** A table whose only limit entry is monthly and expired at time 10. *)
Definition monthly_entry : account_limit :=
  {| lim_account_id := 1; limit_type := monthly_withdrawal;
     lim_amount := 500000; period := monthly; current_usage := 30000;
     reset_at := Some 5 |}.

Definition monthly_limits_db : db :=
  {| accounts := []; transactions := []; account_limits := [monthly_entry];
     audit_logs := []; alerts := []; transactions_id_seq := 1;
     row_locks := [] |}.

Definition sample_account (id : Z) (number : string) (bal overdraft : money)
  : account :=
  {| acc_id := id; acc_user_id := 100 + id; account_number := number;
     balance := bal; acc_status := active; overdraft_limit := overdraft;
     acc_updated_at := 0; closed_at := None; last_transaction_at := None |}.

(** Three active accounts: 100.00 with an overdraft limit of 500.00, 500.00
    without overdraft, and an empty one.  The first has a daily withdrawal
    limit of 1000.00 with 900.00 used, due for reset since time 5. *)
Definition sample_db : db :=
  {| accounts := [sample_account 1 "KB0000000001" 10000 50000;
                  sample_account 2 "KB0000000002" 50000 0;
                  sample_account 3 "KB0000000003" 0 0];
     transactions := [];
     account_limits :=
       [ {| lim_account_id := 1; limit_type := daily_withdrawal;
            lim_amount := 100000; period := daily; current_usage := 90000;
            reset_at := Some 5 |} ];
     audit_logs := []; alerts := []; transactions_id_seq := 1;
     row_locks := [] |}.

(** *** Sequences of calls *)

Inductive ledger_op :=
| Deposit (account_no : string) (amount : numeric) (description : string)
| Withdraw (account_no : string) (amount : numeric) (description : string)
| Transfer (from_account to_account : string) (amount : numeric)
    (description : string).

(** A call of one of the three procedures, with what the environment gives
    it: the time and the generated UUID. *)
Record call := {
  call_now : timestamp;
  call_uuid : uuid;
  call_ip_address : option string;
  call_user_agent : option string;
  call_op : ledger_op
}.

Definition exec (c : call) : M unit :=
  match call_op c with
  | Deposit n amt desc =>
      process_deposit (call_now c) (call_uuid c) n amt desc
        (call_ip_address c) (call_user_agent c) ;; ret tt
  | Withdraw n amt desc =>
      process_withdrawal (call_now c) (call_uuid c) n amt desc
        (call_ip_address c) (call_user_agent c) ;; ret tt
  | Transfer pf pt amt desc =>
      process_transfer (call_now c) (call_uuid c) pf pt amt desc
        (call_ip_address c) (call_user_agent c) ;; ret tt
  end.

(** The statement that makes the call, [SELECT * FROM process_...(...)]. *)
Definition perform (c : call) : M unit := atomically (exec c).

(** The database a list of calls leaves, one statement each: a failed call
    is rolled back and the next starts from the database it found. *)
Fixpoint after_calls (cs : list call) (d : db) : db :=
  match cs with
  | [] => d
  | c :: cs' => after_calls cs' (snd (perform c d))
  end.



Definition sample_call (u : uuid) (op : ledger_op) : call :=
  {| call_now := 10; call_uuid := u; call_ip_address := None;
     call_user_agent := None; call_op := op |}.

(** A deposit of 25.00, a withdrawal of 10.00 and a transfer of 200.00. *)
Definition sample_calls : list call :=
  [sample_call 77 (Deposit "KB0000000001" 25 "salary");
   sample_call 78 (Withdraw "KB0000000002" 10 "atm");
   sample_call 79 (Transfer "KB0000000002" "KB0000000001" 200 "rent")].

(** ** The other functions of 001_banking_functions.sql *)

(** *** get_account_balance *)
Definition get_account_balance (p_account_number : string) : M money :=
  r <- select_active_account p_account_number ;;
  match r with
  | None => raise AccountNotFound
  | Some a => ret (balance a)
  end.

(** accounts.account_number is UNIQUE. *)
Definition numbers_unique (d : db) : Prop :=
  NoDup (map account_number (accounts d)).

(** *** The account number create_account builds *)

(** [floor(random() * 10000)::TEXT], for the value [r] of the floor. *)
Definition text_of (r : Z) : string :=
  NilZero.string_of_uint (N.to_uint (Z.to_N r)).

Fixpoint repeat_char (c : ascii) (n : nat) : string :=
  match n with
  | O => EmptyString
  | S n' => String c (repeat_char c n')
  end.

(** [lpad(s, n, fill)] with a one-character fill: [s] cut to its first [n]
    characters, or filled on the left up to length [n]. *)
Definition lpad (s : string) (n : nat) (fill : ascii) : string :=
  if (n <=? String.length s)%nat then substring 0 n s
  else (repeat_char fill (n - String.length s) ++ s)%string.

(** Lines 330-334: [format('KB%s%s', to_char(NOW(), 'YYYYMMDDHH24MISS'),
    lpad((floor(random() * 10000))::TEXT, 4, '0'))].  [stamp] is the value
    of the to_char and [rnd] the value of the floor, both given by the
    environment. *)
Definition generated_account_number (stamp : string) (rnd : Z) : string :=
  ("KB" ++ stamp ++ lpad (text_of rnd) 4 "0")%string.

Definition is_digit (c : ascii) : bool :=
  ((48 <=? nat_of_ascii c) && (nat_of_ascii c <=? 57))%nat.

Fixpoint all_digits (s : string) : bool :=
  match s with
  | EmptyString => true
  | String c s' => is_digit c && all_digits s'
  end.

(** CONSTRAINT valid_account_number CHECK (account_number ~ '^KB[0-9]{10,}$') *)
Definition valid_account_number (s : string) : bool :=
  match s with
  | String "K" (String "B" rest) =>
      all_digits rest && (10 <=? String.length rest)%nat
  | _ => false
  end.

(** *** create_account *)

Definition create_account_variables : list string :=
  ["p_user_id"; "p_account_type"; "p_initial_balance";
   "account_id"; "account_number"; "balance"; "status";
   "v_account_id"; "v_account_number"; "v_user_exists"].

Fixpoint all_spaces (s : string) : bool :=
  match s with
  | EmptyString => true
  | String c s' => Ascii.eqb c " " && all_spaces s'
  end.

(** A string stored in a VARCHAR(n) column or assigned to a VARCHAR(n)
    variable: a longer string is an error, unless what exceeds [n]
    characters is spaces, which are cut. *)
Definition to_varchar (n : nat) (s : string) : M string :=
  if (String.length s <=? n)%nat then ret s
  else if all_spaces (substring n (String.length s - n) s)
  then ret (substring 0 n s)
  else raise StringTooLong.

(** CHECK (account_type IN ('savings', 'checking', 'business')) *)
Definition valid_account_type (ty : string) : bool :=
  ((ty =? "savings") || (ty =? "checking") || (ty =? "business"))%string.

(** The row [INSERT INTO accounts (user_id, account_number, account_type,
    balance, status)] stores, the other columns at their defaults. *)
Definition new_account (now : timestamp) (v_id p_user_id : Z)
    (number : string) (bal : money) : account :=
  {| acc_id := v_id; acc_user_id := p_user_id; account_number := number;
     balance := bal; acc_status := active; overdraft_limit := 0;
     acc_updated_at := now; closed_at := None; last_transaction_at := None |}.

(** [INSERT INTO accounts ... RETURNING id]: [v_id] is the value the id
    sequence gives.  The values are cast to their columns, the CHECK
    constraints are tested in the order of their names, then the unique
    indexes.  No trigger of the migration fires on this INSERT, and the
    user the foreign key asks for was found by the function's first
    statement. *)
Definition insert_account (now : timestamp) (v_id p_user_id : Z)
    (v_account_number p_account_type : string) (p_initial_balance : numeric)
  : M Z :=
  number <- to_varchar 50 v_account_number ;;
  ty <- to_varchar 20 p_account_type ;;
  bal <- to_decimal_15_2 p_initial_balance ;;
  let row := new_account now v_id p_user_id number bal in
  d <- get ;;
  if negb (valid_account_type ty)
  then raise (CheckViolation "accounts_account_type_check")
  else if negb (positive_balance row)
  then raise (CheckViolation "positive_balance")
  else if negb (valid_account_number number)
  then raise (CheckViolation "valid_account_number")
  else if existsb (fun a => acc_id a =? v_id) (accounts d)
  then raise (UniqueViolation "accounts_pkey")
  else if existsb (fun a => (account_number a =? number)%string) (accounts d)
  then raise (UniqueViolation "accounts_account_number_key")
  else modify (with_accounts (accounts d ++ [row])) ;; ret v_id.

(** The VALUES of the initial deposit. *)
Definition initial_deposit (now : timestamp) (u : uuid) (v_account_id : Z)
    (p_initial_balance : numeric) : transaction_values :=
  {| ins_account_id := v_account_id; ins_type := deposit;
     ins_amount := p_initial_balance; ins_balance_before := 0;
     ins_balance_after := p_initial_balance;
     ins_description := "Initial deposit"; ins_reference_number := u;
     ins_status := completed; ins_related_transaction_id := None;
     ins_related_account_id := None; ins_ip_address := None;
     ins_user_agent := None; ins_created_at := now;
     ins_completed_at := Some now |}.

(** The three rows of the default limits. *)
Definition default_limits (v_account_id : Z) : list account_limit :=
  [ {| lim_account_id := v_account_id; limit_type := daily_withdrawal;
       lim_amount := 100000; period := daily; current_usage := 0;
       reset_at := None |};
    {| lim_account_id := v_account_id; limit_type := daily_transfer;
       lim_amount := 500000; period := daily; current_usage := 0;
       reset_at := None |};
    {| lim_account_id := v_account_id; limit_type := single_transaction;
       lim_amount := 200000; period := per_transaction; current_usage := 0;
       reset_at := None |} ].

Definition created_audit (now : timestamp) (p_user_id v_account_id : Z)
    (number p_account_type : string) (p_initial_balance : numeric)
  : audit_log :=
  {| al_user_id := Some p_user_id; al_account_id := v_account_id;
     action := "account_created"; entity_type := "account";
     entity_id := v_account_id; old_values := [];
     new_values := [("account_number", JText number);
                    ("type", JText p_account_type);
                    ("balance", JNumeric p_initial_balance)];
     al_metadata := []; al_created_at := now |}.

(** What create_account returns. *)
Record account_created := {
  created_account_id : Z;
  created_account_number : string;
  created_balance : numeric;
  created_status : string
}.

(** [users] holds the ids of the users table, which the function only
    reads; [stamp], [rnd] and [v_id] are what to_char(NOW(), ...),
    floor(random() * 10000) and the id sequence of accounts give. *)
Definition create_account (users : list Z) (now : timestamp) (uuid_ : uuid)
    (stamp : string) (rnd v_id : Z) (p_user_id : Z) (p_account_type : string)
    (p_initial_balance : numeric) : M account_created :=
  resolve_names create_account_variables users_columns ["id"; "p_user_id"] ;;
  let v_user_exists := existsb (fun i => i =? p_user_id) users in
  if negb v_user_exists then raise UserNotFound
  else if numeric_ltb p_initial_balance 0 then raise NegativeInitialBalance
  else
    v_account_number <-
      to_varchar 50 (generated_account_number stamp rnd) ;;
    resolve_names create_account_variables accounts_columns ["id"] ;;
    v_account_id <- insert_account now v_id p_user_id v_account_number
                      p_account_type p_initial_balance ;;
    (if numeric_ltb 0 p_initial_balance
     then insert_transaction now
            (initial_deposit now uuid_ v_account_id p_initial_balance) ;;
          ret tt
     else ret tt) ;;
    d <- get ;;
    modify (with_account_limits
              (account_limits d ++ default_limits v_account_id)) ;;
    modify (add_audit_logs
              [created_audit now p_user_id v_account_id v_account_number
                 p_account_type p_initial_balance]) ;;
    ret {| created_account_id := v_account_id;
           created_account_number := v_account_number;
           created_balance := p_initial_balance;
           created_status := "active" |}.

(** The account row create_account leaves for an initial balance of [bal]
    cents: the inserted row, stamped by the trigger update_last_transaction
    when an initial deposit was recorded. *)
Definition created_account_row (now : timestamp) (v_id p_user_id : Z)
    (number : string) (bal : money) : account :=
  if 0 <? bal
  then update_updated_at_column now
         (set_last_transaction_at (Some now)
            (new_account now v_id p_user_id number bal))
  else new_account now v_id p_user_id number bal.

(** The row of the initial deposit, as stored. *)
Definition initial_deposit_row (now : timestamp) (u : uuid) (id v_account_id : Z)
    (bal : money) : transaction :=
  {| tx_id := id; tx_account_id := v_account_id; tx_type := deposit;
     tx_amount := bal; balance_before := 0; balance_after := bal;
     tx_description := "Initial deposit"; reference_number := u;
     tx_status := completed; related_transaction_id := None;
     related_account_id := None; tx_ip_address := None;
     tx_user_agent := None; tx_created_at := now;
     completed_at := Some now |}.

(** The database create_account leaves. *)
Definition created_db (now : timestamp) (u : uuid) (number : string)
    (v_id p_user_id : Z) (p_account_type : string)
    (p_initial_balance : numeric) (d : db) : db :=
  let bal := round_cents p_initial_balance in
  {| accounts :=
       accounts d ++ [created_account_row now v_id p_user_id number bal];
     transactions :=
       if 0 <? bal
       then transactions d
            ++ [initial_deposit_row now u (transactions_id_seq d) v_id bal]
       else transactions d;
     account_limits := account_limits d ++ default_limits v_id;
     audit_logs :=
       audit_logs d ++
       [created_audit now p_user_id v_id number p_account_type
          p_initial_balance];
     alerts := alerts d;
     transactions_id_seq :=
       if 0 <? bal then transactions_id_seq d + 1 else transactions_id_seq d;
     row_locks := row_locks d |}.

(** What create_account needs to go through, given a user of the table, the
    generated [number] and the id [v_id] the sequence gives: an account type
    of the CHECK, an initial balance that is not negative and fits the
    column, an id and a number no account has, and, when there is an
    initial deposit, an amount that is not cast to 0 and a reference no
    transaction has. *)
Definition create_account_accepts (users : list Z) (u : uuid)
    (number : string) (v_id p_user_id : Z) (p_account_type : string)
    (p_initial_balance : numeric) (d : db) : Prop :=
  In p_user_id users /\ (0 <= p_initial_balance)%Q
  /\ valid_account_type p_account_type = true
  /\ Z.abs (round_cents p_initial_balance) < 10 ^ 15
  /\ ~ In v_id (map acc_id (accounts d))
  /\ ~ In number (map account_number (accounts d))
  /\ ((0 < p_initial_balance)%Q ->
      0 < round_cents p_initial_balance
      /\ ~ In u (map reference_number (transactions d))).

(** ** Lists of rows *)

Lemma filter_id_absent (i : Z) (rows : list account) :
  ~ In i (map acc_id rows) ->
  filter (fun r => acc_id r =? i) rows = [].
Proof.
  induction rows as [|a rows IH]; simpl; intros Hn; [reflexivity|].
  destruct (Z.eqb_spec (acc_id a) i) as [E|E].
  - exfalso. apply Hn. now left.
  - apply IH. intros H. apply Hn. now right.
Qed.

(** Under the primary key, [WHERE id = acc_id a] selects the row [a] only. *)
Lemma filter_by_id (a : account) (rows : list account) :
  NoDup (map acc_id rows) -> In a rows ->
  filter (fun r => acc_id r =? acc_id a) rows = [a].
Proof.
  induction rows as [|b rows IH]; simpl; intros Hnd Hin; [contradiction|].
  inversion Hnd as [|x l Hx Hl]; subst.
  destruct Hin as [->|Hin].
  - rewrite Z.eqb_refl. f_equal. now apply filter_id_absent.
  - destruct (Z.eqb_spec (acc_id b) (acc_id a)) as [E|E].
    + exfalso. apply Hx. rewrite E. now apply in_map.
    + now apply IH.
Qed.

Lemma in_update_by_id (a : account) (f : account -> account)
    (rows : list account) :
  In a rows ->
  In (f a) (map (fun r => if acc_id r =? acc_id a then f r else r) rows).
Proof.
  intros Hin. apply in_map_iff. exists a. now rewrite Z.eqb_refl.
Qed.

Lemma find_In {A} (p : A -> bool) (l : list A) (x : A) :
  find p l = Some x -> In x l /\ p x = true.
Proof. apply find_some. Qed.

Lemma nth_error_map_some {A B} (f : A -> B) (l : list A) i x :
  nth_error l i = Some x -> nth_error (map f l) i = Some (f x).
Proof. intros H. now rewrite nth_error_map, H. Qed.

(** ** The table statements *)

Lemma update_accounts_run now where_ set_ d :
  update_accounts now where_ set_ d =
  if forallb (fun a => positive_balance (update_updated_at_column now (set_ a)))
       (filter where_ (accounts d))
  then (Ok (Z.of_nat (List.length (filter where_ (accounts d)))),
        add_audit_logs
          (flat_map (fun a => log_balance_change now a
                                (update_updated_at_column now (set_ a)))
             (filter where_ (accounts d)))
          (with_accounts
             (map (fun a => if where_ a
                            then update_updated_at_column now (set_ a) else a)
                (accounts d)) d))
  else (Err (CheckViolation "positive_balance"), d).
Proof. reflexivity. Qed.

(** An UPDATE of the row with a given id, under the primary key. *)
Lemma update_account_by_id now set_ d a i :
  primary_key d -> In a (accounts d) -> acc_id a = i ->
  update_accounts now (fun r => acc_id r =? i) set_ d =
  if positive_balance (update_updated_at_column now (set_ a))
  then (Ok 1,
        add_audit_logs
          (log_balance_change now a (update_updated_at_column now (set_ a)))
          (with_accounts
             (map (fun r => if acc_id r =? i
                            then update_updated_at_column now (set_ r) else r)
                (accounts d)) d))
  else (Err (CheckViolation "positive_balance"), d).
Proof.
  intros Hpk Hin <-. rewrite update_accounts_run.
  rewrite (filter_by_id a (accounts d) Hpk Hin). simpl.
  rewrite andb_true_r, app_nil_r. reflexivity.
Qed.

(** ** Names that clash, names that do not *)

(** The first SELECT of each of the three transaction procedures tests
    [status], a column of accounts and a column of the RETURNS TABLE. *)
Lemma status_is_ambiguous :
  is_name "status" accounts_columns = true
  /\ is_name "status" process_deposit_variables = true
  /\ is_name "status" process_withdrawal_variables = true
  /\ is_name "status" process_transfer_variables = true.
Proof. repeat split. Qed.

(** No statement of close_account names a variable of close_account: the
    SELECT, the UPDATE, and the VALUES of the INSERT, which see no column. *)
Lemma close_account_names_resolve d :
  resolve_names close_account_variables accounts_columns
    ["id"; "balance"; "user_id"; "account_number"; "p_account_number";
     "status"] d = (Ok tt, d)
  /\ resolve_names close_account_variables accounts_columns
       ["id"; "v_account_id"] d = (Ok tt, d).
Proof. split; reflexivity. Qed.

(** Nor does the UPDATE of reset_daily_limits, whose only variable is
    v_count. *)
Lemma reset_daily_limits_names_resolve d :
  resolve_names ["v_count"] account_limits_columns
    ["period"; "reset_at"; "reset_at"] d = (Ok tt, d).
Proof. reflexivity. Qed.

(** ** close_account, statement by statement *)

Lemma close_account_run now n reason d :
  consistent d ->
  close_account now n reason d =
  match find (is_active_account n) (accounts d) with
  | None => (Err AccountNotFound, d)
  | Some a =>
      if balance a =? 0 then (Ok true, closed_db now a reason d)
      else (Err NonZeroBalance, d)
  end.
Proof.
  intros [Hpk Hck]. unfold close_account, select_active_account.
  unfold bind at 1. unfold bind at 1. unfold get, ret.
  destruct (find (is_active_account n) (accounts d)) as [a|] eqn:F;
    [|reflexivity].
  apply find_In in F. destruct F as [Hin Hact].
  destruct (balance a =? 0) eqn:E; [|reflexivity]. cbn [negb].
  unfold bind at 1.
  rewrite (update_account_by_id now _ d a (acc_id a) Hpk Hin eq_refl).
  unfold positive_balance. cbn [overdraft_limit balance
    update_updated_at_column set_closed].
  replace (- overdraft_limit a <=? balance a) with true
    by (symmetry; apply Z.leb_le; now apply Hck).
  unfold log_balance_change. cbn [balance update_updated_at_column set_closed].
  rewrite Z.eqb_refl. unfold bind, modify, closed_db, add_audit_logs. simpl.
  rewrite app_nil_r. reflexivity.
Qed.

(** ** Closing an account *)

(** C7.  close_account returns true, with the account row set to status
    closed and closed_at = NOW(), if and only if an active account has the
    number and its balance is exactly 0; on a non-zero balance it fails with
    NonZeroBalance and on no active account with AccountNotFound, and the
    database at the failure is the database before the call. *)
Theorem close_account_guard now n reason d :
  consistent d ->
  ((exists a, find (is_active_account n) (accounts d) = Some a
              /\ balance a = 0)
   <-> exists b d', close_account now n reason d = (Ok b, d'))
  /\ (forall b d',
        close_account now n reason d = (Ok b, d') ->
        b = true
        /\ exists a a',
             find (is_active_account n) (accounts d) = Some a
             /\ In a' (accounts d') /\ acc_id a' = acc_id a
             /\ acc_status a' = closed /\ closed_at a' = Some now
             /\ balance a' = 0)
  /\ (forall a,
        find (is_active_account n) (accounts d) = Some a ->
        balance a <> 0 ->
        close_account now n reason d = (Err NonZeroBalance, d))
  /\ (find (is_active_account n) (accounts d) = None ->
      close_account now n reason d = (Err AccountNotFound, d)).
Proof.
  intros Hc. rewrite (close_account_run now n reason d Hc).
  destruct (find (is_active_account n) (accounts d)) as [a|] eqn:F.
  - destruct (Z.eqb_spec (balance a) 0) as [E|E].
    + split; [|split; [|split]].
      * split; [intros _; eauto|intros _; eauto].
      * intros b d' H. injection H as <- <-. split; [reflexivity|].
        exists a, (update_updated_at_column now (set_closed now a)).
        apply find_In in F. destruct F as [Hin _].
        split; [reflexivity|]. split.
        { simpl. now apply (in_update_by_id a
            (fun r => update_updated_at_column now (set_closed now r))). }
        simpl. auto.
      * intros a0 H0 Hne. injection H0 as <-. contradiction.
      * discriminate.
    + split; [|split; [|split]].
      * split.
        { intros (a0 & H0 & Hz). injection H0 as <-. contradiction. }
        { intros (b & d' & H). discriminate. }
      * intros b d' H. discriminate.
      * reflexivity.
      * discriminate.
  - split; [|split; [|split]].
    + split.
      * intros (a0 & H0 & _). discriminate.
      * intros (b & d' & H). discriminate.
    + intros b d' H. discriminate.
    + intros a H. discriminate.
    + reflexivity.
Qed.

(** ** The limit sweep *)

Lemma is_due_daily_spec now l :
  is_due_daily now l = true <-> due_daily now l.
Proof.
  unfold is_due_daily, due_daily. rewrite andb_true_iff. split.
  - intros [Hp Hr]. split; [now destruct (period l)|].
    destruct (reset_at l) as [t|]; [|now left].
    right. exists t. split; [reflexivity|now apply Z.leb_le].
  - intros [Hp Hr]. split; [now rewrite Hp|].
    destruct Hr as [->|(t & -> & Ht)]; [reflexivity|now apply Z.leb_le].
Qed.

(** C8, as stated, fails: at time 10 the sweep leaves a monthly entry with
    reset_at = 5 <= 10 as it is, usage included, and reports 0 rows. *)
Lemma reset_daily_limits_skips_monthly :
  In monthly_entry (account_limits monthly_limits_db)
  /\ reset_at monthly_entry = Some 5 /\ 5 <= 10
  /\ reset_daily_limits 10 monthly_limits_db = (Ok 0, monthly_limits_db)
  /\ current_usage monthly_entry <> 0.
Proof.
  split; [now left|]. split; [reflexivity|]. split; [lia|].
  split; [reflexivity|discriminate].
Qed.

(** C8, amended.  reset_daily_limits at time [now] touches only the limit
    table.  Every entry with period 'daily' whose reset_at is NULL or not
    after [now] gets current_usage 0 and reset_at = [now] + 1 day, which is
    later than its old reset_at, and keeps its other columns; every other
    entry, of another period or with reset_at in the future, is left as it
    is; the value returned is the number of entries reset. *)
Theorem reset_daily_limits_effect now d :
  exists d',
    reset_daily_limits now d
    = (Ok (Z.of_nat (List.length (filter (is_due_daily now)
                                    (account_limits d)))), d')
    /\ (forall l, is_due_daily now l = true <-> due_daily now l)
    /\ accounts d' = accounts d /\ transactions d' = transactions d
    /\ audit_logs d' = audit_logs d /\ alerts d' = alerts d
    /\ List.length (account_limits d') = List.length (account_limits d)
    /\ forall i l,
         nth_error (account_limits d) i = Some l ->
         (due_daily now l ->
          exists l',
            nth_error (account_limits d') i = Some l'
            /\ current_usage l' = 0
            /\ reset_at l' = Some (now + one_day)
            /\ (forall t, reset_at l = Some t -> t < now + one_day)
            /\ lim_account_id l' = lim_account_id l
            /\ limit_type l' = limit_type l
            /\ lim_amount l' = lim_amount l /\ period l' = period l)
         /\ (~ due_daily now l -> nth_error (account_limits d') i = Some l).
Proof.
  eexists. split; [reflexivity|].
  split; [intros l; apply is_due_daily_spec|].
  do 4 (split; [reflexivity|]).
  split; [simpl; apply length_map|].
  intros i l Hi. simpl.
  rewrite (nth_error_map_some _ _ _ _ Hi).
  split.
  - intros Hd. pose proof (proj2 (is_due_daily_spec now l) Hd) as E.
    rewrite E. eexists. split; [reflexivity|]. simpl.
    repeat split; try reflexivity.
    intros t Ht. destruct Hd as [_ [Hn|(t' & Ht' & Hle)]]; [congruence|].
    unfold one_day. assert (t = t') by congruence. lia.
  - intros Hd. destruct (is_due_daily now l) eqn:E; [|reflexivity].
    elim Hd. now apply is_due_daily_spec.
Qed.

(** ** The sample database *)

Lemma sample_db_consistent : consistent sample_db.
Proof.
  split.
  - unfold primary_key. simpl.
    repeat constructor; simpl; intuition discriminate.
  - intros a Hin. simpl in Hin.
    destruct Hin as [<-|[<-|[<-|[]]]]; simpl; lia.
Qed.

Lemma close_account_guard_witness :
  consistent sample_db
  /\ (exists b d', close_account 10 "KB0000000003" "moving" sample_db
                   = (Ok b, d'))
  /\ close_account 10 "KB0000000002" "moving" sample_db
     = (Err NonZeroBalance, sample_db).
Proof.
  split; [exact sample_db_consistent|]. split.
  - apply (proj1 (close_account_guard 10 "KB0000000003" "moving" sample_db
                    sample_db_consistent)).
    eexists. split; [reflexivity|reflexivity].
  - apply (proj1 (proj2 (proj2 (close_account_guard 10 "KB0000000002"
                                  "moving" sample_db sample_db_consistent)))
             (sample_account 2 "KB0000000002" 50000 0));
      [reflexivity|discriminate].
Defined.

Lemma reset_daily_limits_effect_witness :
  exists d',
    reset_daily_limits 10 sample_db = (Ok 1, d')
    /\ exists l', nth_error (account_limits d') 0 = Some l'
                  /\ current_usage l' = 0
                  /\ reset_at l' = Some (10 + one_day).
Proof.
  destruct (reset_daily_limits_effect 10 sample_db)
    as (d' & E & _ & _ & _ & _ & _ & _ & K).
  exists d'. split; [exact E|].
  destruct (K 0%nat _ eq_refl) as [K1 _].
  destruct K1 as (l' & N & U & R & _).
  - split; [reflexivity|]. right. exists 5. split; [reflexivity|lia].
  - exists l'. auto.
Defined.

(** ** Comparisons of numeric values *)

Lemma numeric_leb_spec (x y : numeric) :
  numeric_leb x y = true <-> (x <= y)%Q.
Proof. apply Qle_bool_iff. Qed.

Lemma numeric_ltb_spec (x y : numeric) :
  numeric_ltb x y = true <-> (x < y)%Q.
Proof.
  unfold numeric_ltb. rewrite negb_true_iff. split.
  - intros H. apply Qnot_le_lt. intros L.
    apply Qle_bool_iff in L. congruence.
  - intros H. destruct (Qle_bool y x) eqn:E; [|reflexivity].
    apply Qle_bool_iff in E. exfalso. exact (Qlt_not_le _ _ H E).
Qed.

Lemma numeric_leb_positive (x : numeric) :
  (0 < x)%Q -> numeric_leb x 0 = false.
Proof.
  intros H. destruct (numeric_leb x 0) eqn:E; [|reflexivity].
  apply numeric_leb_spec in E. exfalso. exact (Qlt_not_le _ _ H E).
Qed.


(** ** The three transaction procedures, statement by statement *)

(** process_deposit stops at its first statement, whatever its arguments
    and whatever the tables hold. *)
Lemma process_deposit_raises now u n amt desc ip ua d :
  process_deposit now u n amt desc ip ua d
  = (Err (AmbiguousColumn "status"), d).
Proof. reflexivity. Qed.

(** So does process_withdrawal. *)
Lemma process_withdrawal_raises now u n amt desc ip ua d :
  process_withdrawal now u n amt desc ip ua d
  = (Err (AmbiguousColumn "status"), d).
Proof. reflexivity. Qed.

(** process_transfer makes its two tests of the arguments and stops at the
    first SELECT ... FOR UPDATE. *)
Lemma process_transfer_raises now u pf pt amt desc ip ua d :
  process_transfer now u pf pt amt desc ip ua d
  = if (pf =? pt)%string then (Err SelfTransfer, d)
    else if numeric_leb amt 0 then (Err InvalidAmount, d)
    else (Err (AmbiguousColumn "status"), d).
Proof.
  unfold process_transfer.
  destruct (pf =? pt)%string; [reflexivity|].
  destruct (numeric_leb amt 0); reflexivity.
Qed.

Lemma process_transfer_fails now u pf pt amt desc ip ua d :
  exists e, process_transfer now u pf pt amt desc ip ua d = (Err e, d).
Proof.
  rewrite process_transfer_raises.
  destruct (pf =? pt)%string; [eauto|].
  destruct (numeric_leb amt 0); eauto.
Qed.

(** The BEFORE INSERT trigger stops at its SELECT on every withdrawal and
    transfer row. *)
Lemma validate_transaction_amount_raises new d :
  tx_type new = withdrawal \/ tx_type new = transfer ->
  validate_transaction_amount new d
  = (Err (AmbiguousColumn "overdraft_limit"), d).
Proof.
  unfold validate_transaction_amount. intros [-> | ->]; reflexivity.
Qed.

(** *** Calls *)

Lemma exec_fails c d : exists e, exec c d = (Err e, d).
Proof.
  unfold exec. destruct (call_op c) as [n amt desc|n amt desc|pf pt amt desc].
  - unfold bind. rewrite process_deposit_raises. eauto.
  - unfold bind. rewrite process_withdrawal_raises. eauto.
  - unfold bind.
    destruct (process_transfer_fails (call_now c) (call_uuid c) pf pt amt desc
                (call_ip_address c) (call_user_agent c) d) as [e ->].
    eauto.
Qed.

(** Every call fails, and leaves the tables and the sequence as they
    were. *)
Lemma perform_fails c d :
  exists e,
    perform c d = (Err e, release_row_locks (rolled_back d d)).
Proof.
  unfold perform, atomically. destruct (exec_fails c d) as [e ->]. eauto.
Qed.

Lemma perform_same_tables c d : same_tables d (snd (perform c d)).
Proof.
  destruct (perform_fails c d) as [e ->]. repeat split.
Qed.





(** ** Deposit *)

(** C6, on the code: on an active account and with a positive amount,
    process_deposit raises SQLSTATE 42702 at its first SELECT.  The call
    returns no row, and the tables after it, the balance of the account
    among them, are the tables before it: no Transaction, no Audit Entry. *)
Theorem deposit_raises_before_any_write now u n amt desc ip ua d a :
  find (is_active_account n) (accounts d) = Some a ->
  (0 < amt)%Q ->
  process_deposit now u n amt desc ip ua d
  = (Err (AmbiguousColumn "status"), d)
  /\ fst (atomically (process_deposit now u n amt desc ip ua) d)
     = Err (AmbiguousColumn "status")
  /\ same_tables d (snd (atomically (process_deposit now u n amt desc ip ua) d))
  /\ active_balance n
       (snd (atomically (process_deposit now u n amt desc ip ua) d))
     = Some (balance a).
Proof.
  intros F _. split; [apply process_deposit_raises|].
  unfold atomically. rewrite process_deposit_raises. cbn [fst snd].
  split; [reflexivity|]. split; [repeat split|].
  unfold active_balance. cbn [accounts release_row_locks rolled_back
    with_transactions_id_seq]. now rewrite F.
Qed.

(** ** Withdrawal *)

(** C4, on the code: process_withdrawal fails on every call, with SQLSTATE
    42702 (the name status of its first SELECT is ambiguous), which is none
    of AccountNotFound, InvalidAmount, InsufficientFunds and LimitExceeded,
    whether the account is missing, the amount is not positive, the funds do
    not suffice or the limit is exceeded; the database at the error is the
    database before the call. *)
Theorem withdrawal_fails_outside_its_four_kinds now u n amt desc ip ua d :
  exists e,
    process_withdrawal now u n amt desc ip ua d = (Err e, d)
    /\ e = AmbiguousColumn "status"
    /\ e <> AccountNotFound /\ e <> InvalidAmount
    /\ e <> InsufficientFunds /\ e <> LimitExceeded.
Proof.
  exists (AmbiguousColumn "status").
  split; [apply process_withdrawal_raises|].
  split; [reflexivity|]. repeat split; discriminate.
Qed.

(** ** The funds check of a transfer *)

(** C2, on the code: a transfer between two different accounts of a
    positive amount raises SQLSTATE 42702 at the first SELECT ... FOR
    UPDATE, before the funds check of lines 231-235: it neither fails with
    InsufficientFunds nor succeeds, whatever the balance and the overdraft
    limit of the source. *)
Theorem transfer_stops_before_funds_check now u pf pt amt desc ip ua d :
  pf <> pt -> (0 < amt)%Q ->
  process_transfer now u pf pt amt desc ip ua d
  = (Err (AmbiguousColumn "status"), d)
  /\ fst (atomically (process_transfer now u pf pt amt desc ip ua) d)
     <> Err InsufficientFunds
  /\ forall r,
       fst (atomically (process_transfer now u pf pt amt desc ip ua) d)
       <> Ok r.
Proof.
  intros Hne Hpos.
  assert (E : process_transfer now u pf pt amt desc ip ua d
              = (Err (AmbiguousColumn "status"), d)).
  { rewrite process_transfer_raises.
    apply String.eqb_neq in Hne. rewrite Hne.
    now rewrite (numeric_leb_positive amt Hpos). }
  split; [exact E|].
  unfold atomically. rewrite E. cbn [fst]. split; [discriminate|].
  intros r. discriminate.
Qed.

(** ** The two legs of a transfer *)


(** ** Row locks of a transfer *)



(** ** The daily limit of a withdrawal *)

(** C5.  A call of the ledger leaves every Limit Entry within its cap when
    every entry was within its cap before, and a withdrawal that would lift
    the usage of a daily_withdrawal entry of its account above the cap
    fails as a whole: no table is changed.  (By [perform_same_tables] no
    call changes the usage of an entry.) *)
Theorem limit_usage_within_cap c d :
  within_caps d ->
  within_caps (snd (perform c d))
  /\ forall n amt desc a l,
       call_op c = Withdraw n amt desc ->
       find (is_active_account n) (accounts d) = Some a ->
       In l (account_limits d) ->
       lim_account_id l = acc_id a -> limit_type l = daily_withdrawal ->
       (of_money (lim_amount l) < of_money (current_usage l) + amt)%Q ->
       (exists e, fst (perform c d) = Err e)
       /\ same_tables d (snd (perform c d)).
Proof.
  intros W. pose proof (perform_same_tables c d) as S.
  split.
  - destruct S as (_ & _ & E & _). unfold within_caps. now rewrite E.
  - intros n amt desc a l _ _ _ _ _ _. split; [|exact S].
    destruct (perform_fails c d) as [e ->]. now exists e.
Qed.

(** ** Alerts *)


(** ** Conservation *)


(** ** The theorems at work on the sample data *)

(** No call of the sample succeeds, and the sample database is what the
    three calls leave. *)
Lemma sample_calls_fail :
  map (fun c => fst (perform c sample_db)) sample_calls
  = [Err (AmbiguousColumn "status"); Err (AmbiguousColumn "status");
     Err (AmbiguousColumn "status")]
  /\ after_calls sample_calls sample_db = sample_db.
Proof. split; reflexivity. Qed.

Lemma deposit_raises_before_any_write_witness :
  process_deposit 10 77 "KB0000000001" 25 "salary" None None sample_db
  = (Err (AmbiguousColumn "status"), sample_db)
  /\ active_balance "KB0000000001"
       (snd (atomically
               (process_deposit 10 77 "KB0000000001" 25 "salary" None None)
               sample_db))
     = Some 10000
  /\ transactions
       (snd (atomically
               (process_deposit 10 77 "KB0000000001" 25 "salary" None None)
               sample_db))
     = [].
Proof.
  destruct (deposit_raises_before_any_write 10 77 "KB0000000001" 25 "salary"
              None None sample_db (sample_account 1 "KB0000000001" 10000 50000)
              eq_refl eq_refl) as (E & _ & S & B).
  split; [exact E|]. split; [exact B|].
  destruct S as (_ & T & _). exact T.
Defined.

(** A withdrawal of 200.00 covered by the overdraft limit, and one of 600.00
    that is not: neither reaches the funds check. *)
Lemma transfer_stops_before_funds_check_witness :
  process_transfer 10 79 "KB0000000001" "KB0000000002" 200 "rent" None None
    sample_db
  = (Err (AmbiguousColumn "status"), sample_db)
  /\ process_transfer 10 79 "KB0000000002" "KB0000000001" 600 "rent" None
       None sample_db
     = (Err (AmbiguousColumn "status"), sample_db).
Proof.
  split.
  - apply (transfer_stops_before_funds_check 10 79 "KB0000000001"
             "KB0000000002" 200 "rent" None None sample_db);
      [discriminate|reflexivity].
  - apply (transfer_stops_before_funds_check 10 79 "KB0000000002"
             "KB0000000001" 600 "rent" None None sample_db);
      [discriminate|reflexivity].
Defined.

Lemma sample_db_within_caps : within_caps sample_db.
Proof.
  intros l Hin. simpl in Hin. destruct Hin as [<-|[]]. simpl. lia.
Qed.

(** At time 3 the daily entry of account 1 is open with 900.00 of 1000.00
    used: a withdrawal of 200.00 would exceed it, and changes nothing. *)
Lemma limit_usage_within_cap_witness :
  within_caps sample_db
  /\ within_caps
       (snd (perform
               {| call_now := 3; call_uuid := 77; call_ip_address := None;
                  call_user_agent := None;
                  call_op := Withdraw "KB0000000001" 200 "atm" |}
               sample_db))
  /\ account_limits
       (snd (perform
               {| call_now := 3; call_uuid := 77; call_ip_address := None;
                  call_user_agent := None;
                  call_op := Withdraw "KB0000000001" 200 "atm" |}
               sample_db))
     = account_limits sample_db.
Proof.
  split; [exact sample_db_within_caps|].
  destruct (limit_usage_within_cap
              {| call_now := 3; call_uuid := 77; call_ip_address := None;
                 call_user_agent := None;
                 call_op := Withdraw "KB0000000001" 200 "atm" |}
              sample_db sample_db_within_caps) as [W K].
  split; [exact W|].
  destruct (K "KB0000000001" 200%Q "atm"
              (sample_account 1 "KB0000000001" 10000 50000)
              {| lim_account_id := 1; limit_type := daily_withdrawal;
                 lim_amount := 100000; period := daily;
                 current_usage := 90000; reset_at := Some 5 |}
              eq_refl eq_refl (or_introl eq_refl) eq_refl eq_refl eq_refl)
    as [_ (_ & _ & L & _)].
  exact L.
Defined.


(** ** The sweep, twice *)

Lemma reset_limit_not_due now l :
  is_due_daily now (reset_limit now l) = false.
Proof.
  unfold is_due_daily, reset_limit, one_day. simpl.
  apply andb_false_intro2. apply Z.leb_gt. lia.
Qed.

Lemma filter_all_false {A} (p : A -> bool) (l : list A) :
  (forall x, In x l -> p x = false) -> filter p l = [].
Proof.
  induction l as [|a l IH]; simpl; intros H; [reflexivity|].
  rewrite (H a (or_introl eq_refl)). apply IH. intros x Hx. apply H. now right.
Qed.

Lemma map_if_all_false {A} (p : A -> bool) (g : A -> A) (l : list A) :
  (forall x, In x l -> p x = false) ->
  map (fun x => if p x then g x else x) l = l.
Proof.
  induction l as [|a l IH]; simpl; intros H; [reflexivity|].
  rewrite (H a (or_introl eq_refl)). f_equal. apply IH.
  intros x Hx. apply H. now right.
Qed.

(** Right after reset_daily_limits every entry of period 'daily' has a
    reset_at in the future, so none is expired, and a second sweep at the
    same time resets nothing: it returns 0 and leaves the database as the
    first sweep left it. *)
Theorem reset_daily_limits_idempotent now d r d' :
  reset_daily_limits now d = (Ok r, d') ->
  reset_daily_limits now d' = (Ok 0, d')
  /\ forall l, In l (account_limits d') -> period l = daily ->
               exists t, reset_at l = Some t /\ now < t.
Proof.
  intros H. unfold reset_daily_limits, bind, get, modify, ret in H.
  injection H as _ <-.
  assert (Hnone : forall l,
             In l (map (fun l => if is_due_daily now l
                                 then reset_limit now l else l)
                     (account_limits d)) ->
             is_due_daily now l = false).
  { intros l Hl. apply in_map_iff in Hl. destruct Hl as (l0 & <- & _).
    destruct (is_due_daily now l0) eqn:E; [apply reset_limit_not_due|exact E]. }
  split.
  - unfold reset_daily_limits, bind, get, modify, ret. simpl.
    set (ls := map _ (account_limits d)) in *.
    pose proof (filter_all_false (is_due_daily now) ls Hnone) as E1.
    pose proof (map_if_all_false (is_due_daily now) (reset_limit now) ls
                  Hnone) as E2.
    rewrite E1. unfold with_account_limits. simpl. rewrite E2. reflexivity.
  - intros l Hl Hp. simpl in Hl. specialize (Hnone l Hl).
    unfold is_due_daily in Hnone. rewrite Hp in Hnone. simpl in Hnone.
    destruct (reset_at l) as [t|]; [|discriminate].
    exists t. split; [reflexivity|]. now apply Z.leb_gt.
Qed.

(** ** Closing, in full *)

(** A close_account that returns changes, in the accounts table, the closed
    row only, and of that row only status, closed_at and updated_at; it
    leaves transactions, limits and alerts as they are, and adds to the
    audit log exactly one entry, account_closed, that carries the reason. *)
Theorem close_account_effect now n reason d b d' :
  consistent d ->
  close_account now n reason d = (Ok b, d') ->
  exists a h e,
    find (is_active_account n) (accounts d) = Some a
    /\ accounts d' = map h (accounts d)
    /\ (forall r, acc_id r <> acc_id a -> h r = r)
    /\ acc_id (h a) = acc_id a /\ account_number (h a) = account_number a
    /\ acc_user_id (h a) = acc_user_id a /\ balance (h a) = balance a
    /\ overdraft_limit (h a) = overdraft_limit a
    /\ last_transaction_at (h a) = last_transaction_at a
    /\ acc_status (h a) = closed /\ closed_at (h a) = Some now
    /\ acc_updated_at (h a) = now
    /\ transactions d' = transactions d
    /\ account_limits d' = account_limits d
    /\ alerts d' = alerts d
    /\ audit_logs d' = (audit_logs d ++ [e])%list
    /\ action e = "account_closed" /\ al_account_id e = acc_id a
    /\ al_user_id e = Some (acc_user_id a)
    /\ In ("reason", JText reason) (al_metadata e)
    /\ In ("status", JText "active") (old_values e)
    /\ In ("status", JText "closed") (new_values e).
Proof.
  intros Hc H.
  rewrite (close_account_run now n reason d Hc) in H.
  destruct (find (is_active_account n) (accounts d)) as [a|] eqn:F;
    [|discriminate].
  destruct (balance a =? 0); [|discriminate].
  injection H as <- <-.
  exists a,
    (fun r => if acc_id r =? acc_id a
              then update_updated_at_column now (set_closed now r) else r),
    (closed_audit now a reason).
  split; [reflexivity|]. split; [reflexivity|]. split.
  { intros r Hr. destruct (Z.eqb_spec (acc_id r) (acc_id a));
      [contradiction|reflexivity]. }
  rewrite Z.eqb_refl. simpl. repeat split; auto.
Qed.

(** ** A closed account *)

Lemma find_all_false {A} (p : A -> bool) (l : list A) :
  (forall x, In x l -> p x = false) -> find p l = None.
Proof.
  induction l as [|a l IH]; simpl; intros H; [reflexivity|].
  rewrite (H a (or_introl eq_refl)). apply IH. intros x Hx. apply H. now right.
Qed.

Lemma NoDup_map_eq {A B} (f : A -> B) (l : list A) a b :
  NoDup (map f l) -> In a l -> In b l -> f a = f b -> a = b.
Proof.
  induction l as [|x l IH]; simpl; intros Hnd Ha Hb E; [contradiction|].
  inversion Hnd as [|y m Hx Hl]; subst.
  destruct Ha as [->|Ha], Hb as [->|Hb].
  - reflexivity.
  - exfalso. apply Hx. rewrite E. now apply in_map.
  - exfalso. apply Hx. rewrite <- E. now apply in_map.
  - now apply IH.
Qed.

Lemma is_active_account_number n a :
  is_active_account n a = true -> account_number a = n /\ acc_status a = active.
Proof.
  unfold is_active_account. intros H. apply andb_prop in H.
  destruct H as [Hn Hs]. apply String.eqb_eq in Hn. split; [exact Hn|].
  now destruct (acc_status a).
Qed.

Lemma closed_db_consistent now a reason d :
  consistent d -> consistent (closed_db now a reason d).
Proof.
  intros [Hpk Hck]. split.
  - unfold primary_key. simpl. rewrite map_map.
    erewrite map_ext; [exact Hpk|].
    intros r. now destruct (acc_id r =? acc_id a).
  - intros r' Hr'. simpl in Hr'. apply in_map_iff in Hr'.
    destruct Hr' as (r & <- & Hr).
    destruct (acc_id r =? acc_id a); simpl; now apply Hck.
Qed.

Lemma closed_db_numbers_unique now a reason d :
  numbers_unique d -> numbers_unique (closed_db now a reason d).
Proof.
  unfold numbers_unique. intros H. simpl. rewrite map_map.
  erewrite map_ext; [exact H|].
  intros r. now destruct (acc_id r =? acc_id a).
Qed.

Lemma closed_db_not_active now n a reason d :
  consistent d -> numbers_unique d ->
  find (is_active_account n) (accounts d) = Some a ->
  find (is_active_account n) (accounts (closed_db now a reason d)) = None.
Proof.
  intros Hc Hu F. apply find_In in F. destruct F as [Hin Hact].
  apply is_active_account_number in Hact. destruct Hact as [Hn _].
  apply find_all_false. intros r' Hr'. simpl in Hr'.
  apply in_map_iff in Hr'. destruct Hr' as (r & <- & Hr).
  destruct (Z.eqb_spec (acc_id r) (acc_id a)) as [E|E].
  - unfold is_active_account. simpl. apply andb_false_r.
  - unfold is_active_account.
    destruct (String.eqb_spec (account_number r) n) as [En|En];
      [|reflexivity].
    exfalso. apply E. f_equal.
    apply (NoDup_map_eq account_number (accounts d)); auto. congruence.
Qed.

(** Once close_account has closed an account, its number is dead for the
    functions that look an account up by number and status: a second
    close_account and get_account_balance raise 'account not found' and
    write nothing.  The constraints of the accounts table still hold. *)
Theorem closed_account_is_terminal now n reason d b d' :
  consistent d ->
  numbers_unique d ->
  close_account now n reason d = (Ok b, d') ->
  (forall now' reason',
      close_account now' n reason' d' = (Err AccountNotFound, d'))
  /\ get_account_balance n d' = (Err AccountNotFound, d')
  /\ consistent d' /\ numbers_unique d'.
Proof.
  intros Hc Hu H.
  rewrite (close_account_run now n reason d Hc) in H.
  destruct (find (is_active_account n) (accounts d)) as [a|] eqn:F;
    [|discriminate].
  destruct (Z.eqb_spec (balance a) 0) as [Hz|Hz]; [|discriminate].
  injection H as <- <-.
  pose proof (closed_db_consistent now a reason d Hc) as Hc'.
  pose proof (closed_db_not_active now n a reason d Hc Hu F) as N.
  split; [|split; [|split]].
  - intros now' reason'.
    now rewrite (close_account_run now' n reason' _ Hc'), N.
  - unfold get_account_balance, select_active_account, bind, get, ret.
    now rewrite N.
  - exact Hc'.
  - now apply closed_db_numbers_unique.
Qed.

(** ** Rows the trigger validate_transaction_amount refuses *)

(** An INSERT of a withdrawal or transfer row into transactions stores
    nothing, whatever the balance of the account: a cast of an amount to
    its column fails or, when the three amounts fit, the BEFORE INSERT
    trigger stops at its SELECT, where overdraft_limit is both its variable
    and a column of accounts; the id drawn from the sequence is then
    spent. *)
Theorem debit_rows_are_refused now v d :
  ins_type v = withdrawal \/ ins_type v = transfer ->
  exists e d',
    insert_transaction now v d = (Err e, d')
    /\ same_tables d d'
    /\ (e = AmbiguousColumn "overdraft_limit" \/ e = NumericOverflow)
    /\ (Z.abs (round_cents (ins_amount v)) < 10 ^ 15 ->
        Z.abs (round_cents (ins_balance_before v)) < 10 ^ 15 ->
        Z.abs (round_cents (ins_balance_after v)) < 10 ^ 15 ->
        e = AmbiguousColumn "overdraft_limit"
        /\ transactions_id_seq d' = transactions_id_seq d + 1).
Proof.
  intros Hty. unfold insert_transaction, next_transaction_id.
  unfold bind at 1. unfold bind at 1. unfold get at 1.
  unfold bind at 1. unfold modify at 1. unfold ret at 1.
  set (d1 := with_transactions_id_seq (transactions_id_seq d + 1) d).
  assert (S1 : same_tables d d1) by (repeat split).
  unfold to_decimal_15_2.
  destruct (Z.ltb_spec (Z.abs (round_cents (ins_amount v))) (10 ^ 15));
    [|exists NumericOverflow, d1; repeat split; auto; lia].
  unfold bind at 1. unfold ret at 1.
  destruct (Z.ltb_spec (Z.abs (round_cents (ins_balance_before v)))
              (10 ^ 15));
    [|exists NumericOverflow, d1; repeat split; auto; lia].
  unfold bind at 1. unfold ret at 1.
  destruct (Z.ltb_spec (Z.abs (round_cents (ins_balance_after v)))
              (10 ^ 15));
    [|exists NumericOverflow, d1; repeat split; auto; lia].
  unfold bind at 1. unfold ret at 1.
  unfold bind at 1.
  rewrite validate_transaction_amount_raises by exact Hty.
  exists (AmbiguousColumn "overdraft_limit"), d1. repeat split; auto.
Qed.

(** ** Generated account numbers *)

Lemma all_digits_app s s' :
  all_digits (s ++ s') = all_digits s && all_digits s'.
Proof.
  induction s as [|c s IH]; simpl; [reflexivity|].
  now rewrite IH, andb_assoc.
Qed.

Lemma all_digits_uint u : all_digits (NilEmpty.string_of_uint u) = true.
Proof. induction u; simpl; auto. Qed.

Lemma all_digits_text_of r : all_digits (text_of r) = true.
Proof.
  unfold text_of, NilZero.string_of_uint.
  destruct (N.to_uint (Z.to_N r)) eqn:E; try reflexivity;
    rewrite <- E; apply all_digits_uint.
Qed.

Lemma all_digits_repeat_zero n : all_digits (repeat_char "0" n) = true.
Proof. induction n; simpl; auto. Qed.

Lemma length_repeat_char c n : String.length (repeat_char c n) = n.
Proof. induction n; simpl; auto. Qed.

Lemma length_append s s' :
  String.length (s ++ s') = (String.length s + String.length s')%nat.
Proof. induction s as [|c s IH]; simpl; auto. Qed.

Lemma all_digits_prefix n s :
  all_digits s = true -> all_digits (substring 0 n s) = true.
Proof.
  revert s. induction n as [|n IH]; intros s H.
  - now destruct s.
  - destruct s as [|c s]; simpl; [reflexivity|].
    simpl in H. apply andb_prop in H. destruct H as [Hc Hs].
    now rewrite Hc, IH.
Qed.

Lemma length_prefix n s :
  (n <= String.length s)%nat -> String.length (substring 0 n s) = n.
Proof.
  revert s. induction n as [|n IH]; intros s H.
  - now destruct s.
  - destruct s as [|c s]; simpl in *; [lia|]. rewrite IH; lia.
Qed.

Lemma lpad_digits s n :
  all_digits s = true ->
  all_digits (lpad s n "0") = true /\ String.length (lpad s n "0") = n.
Proof.
  intros H. unfold lpad.
  destruct (Nat.leb_spec n (String.length s)) as [Hle|Hgt].
  - split; [now apply all_digits_prefix|now apply length_prefix].
  - split.
    + now rewrite all_digits_app, all_digits_repeat_zero, H.
    + rewrite length_append, length_repeat_char. lia.
Qed.

Lemma generated_number_check stamp rnd :
  all_digits stamp = true -> (6 <= String.length stamp)%nat ->
  valid_account_number (generated_account_number stamp rnd) = true.
Proof.
  intros Hd Hl.
  destruct (lpad_digits (text_of rnd) 4 (all_digits_text_of rnd)) as [Pd Pl].
  change (all_digits (stamp ++ lpad (text_of rnd) 4 "0")
          && (10 <=? String.length (stamp ++ lpad (text_of rnd) 4 "0"))%nat
          = true).
  rewrite all_digits_app, Hd, Pd, length_append, Pl.
  apply Nat.leb_le. lia.
Qed.

Lemma generated_number_length stamp rnd :
  String.length (generated_account_number stamp rnd)
  = (String.length stamp + 6)%nat.
Proof.
  destruct (lpad_digits (text_of rnd) 4 (all_digits_text_of rnd)) as [_ Pl].
  change (S (S (String.length (stamp ++ lpad (text_of rnd) 4 "0")))
          = (String.length stamp + 6)%nat).
  rewrite length_append, Pl. lia.
Qed.

(** The account number create_account generates is "KB" followed by the
    digits of the timestamp and exactly four more digits, whatever the
    random value; with the 14 digits of YYYYMMDDHH24MISS (6 are enough) it
    always passes the CHECK valid_account_number of the accounts table. *)
Theorem generated_account_number_is_valid stamp rnd :
  all_digits stamp = true ->
  (6 <= String.length stamp)%nat ->
  valid_account_number (generated_account_number stamp rnd) = true
  /\ String.length (generated_account_number stamp rnd)
     = (String.length stamp + 6)%nat
  /\ exists suffix,
       generated_account_number stamp rnd = ("KB" ++ stamp ++ suffix)%string
       /\ String.length suffix = 4%nat /\ all_digits suffix = true.
Proof.
  intros Hd Hl.
  destruct (lpad_digits (text_of rnd) 4 (all_digits_text_of rnd)) as [Pd Pl].
  unfold generated_account_number. split; [|split].
  - change (all_digits (stamp ++ lpad (text_of rnd) 4 "0")
            && (10 <=? String.length (stamp ++ lpad (text_of rnd) 4 "0"))%nat
            = true).
    rewrite all_digits_app, Hd, Pd, length_append, Pl.
    apply Nat.leb_le. lia.
  - change (S (S (String.length (stamp ++ lpad (text_of rnd) 4 "0")))
            = (String.length stamp + 6)%nat).
    rewrite length_append, Pl. lia.
  - exists (lpad (text_of rnd) 4 "0"). auto.
Qed.

(** ** create_account, statement by statement *)

Lemma map_id_absent (i : Z) (f : account -> account) (rows : list account) :
  ~ In i (map acc_id rows) ->
  map (fun r => if acc_id r =? i then f r else r) rows = rows.
Proof.
  induction rows as [|a rows IH]; simpl; intros Hn; [reflexivity|].
  destruct (Z.eqb_spec (acc_id a) i) as [E|E].
  - exfalso. apply Hn. now left.
  - f_equal. apply IH. intros H. apply Hn. now right.
Qed.

Lemma existsb_false_not_in {A B} (f : A -> B) (eqb : B -> B -> bool)
    (l : list A) (v : B) :
  (forall x y, eqb x y = true <-> x = y) ->
  existsb (fun a => eqb (f a) v) l = false -> ~ In v (map f l).
Proof.
  intros Heq H Hin. apply in_map_iff in Hin. destruct Hin as (a & E & Ha).
  assert (existsb (fun a => eqb (f a) v) l = true); [|congruence].
  apply existsb_exists. exists a. split; [exact Ha|]. now apply Heq.
Qed.

Lemma not_in_existsb_false {A B} (f : A -> B) (eqb : B -> B -> bool)
    (l : list A) (v : B) :
  (forall x y, eqb x y = true <-> x = y) ->
  ~ In v (map f l) -> existsb (fun a => eqb (f a) v) l = false.
Proof.
  intros Heq Hn. destruct (existsb (fun a => eqb (f a) v) l) eqn:E;
    [|reflexivity].
  apply existsb_exists in E. destruct E as (a & Ha & Ea).
  exfalso. apply Hn. apply in_map_iff. exists a. split; [|exact Ha].
  now apply Heq.
Qed.

Lemma to_varchar_fits n s d :
  (String.length s <= n)%nat -> to_varchar n s d = (Ok s, d).
Proof.
  intros H. unfold to_varchar. apply Nat.leb_le in H. now rewrite H.
Qed.

Lemma valid_account_type_length ty :
  valid_account_type ty = true -> (String.length ty <= 20)%nat.
Proof.
  unfold valid_account_type. intros H.
  apply orb_prop in H. destruct H as [H|H].
  - apply orb_prop in H.
    destruct H as [H|H]; apply String.eqb_eq in H; subst; simpl; lia.
  - apply String.eqb_eq in H. subst. simpl. lia.
Qed.

(** The cast of an amount that is not negative is not negative, and is 0
    for 0. *)
Lemma round_cents_nonneg (x : numeric) : (0 <= x)%Q -> 0 <= round_cents x.
Proof.
  intros H. unfold Qle in H. cbn [Qnum Qden] in H.
  rewrite Z.mul_0_l, Z.mul_1_r in H. unfold round_cents. cbv zeta.
  apply Z.mul_nonneg_nonneg.
  - apply Z.sgn_nonneg. lia.
  - apply Z.div_pos; lia.
Qed.

Lemma round_cents_zero (x : numeric) :
  (0 <= x)%Q -> (x <= 0)%Q -> round_cents x = 0.
Proof.
  intros H1 H2. unfold Qle in H1, H2. cbn [Qnum Qden] in H1, H2.
  rewrite Z.mul_0_l, Z.mul_1_r in H1, H2.
  assert (E : Qnum x = 0) by lia. unfold round_cents. rewrite E. reflexivity.
Qed.

(** The INSERT INTO accounts of create_account, for a number and a type
    that fit their columns. *)
Lemma insert_account_run now v_id p_user_id number ty p d :
  (String.length number <= 50)%nat ->
  valid_account_type ty = true ->
  (0 <= p)%Q ->
  insert_account now v_id p_user_id number ty p d =
  if negb (Z.abs (round_cents p) <? 10 ^ 15) then (Err NumericOverflow, d)
  else if negb (valid_account_number number)
  then (Err (CheckViolation "valid_account_number"), d)
  else if existsb (fun a => acc_id a =? v_id) (accounts d)
  then (Err (UniqueViolation "accounts_pkey"), d)
  else if existsb (fun a => (account_number a =? number)%string) (accounts d)
  then (Err (UniqueViolation "accounts_account_number_key"), d)
  else (Ok v_id,
        with_accounts
          (accounts d ++ [new_account now v_id p_user_id number
                            (round_cents p)]) d).
Proof.
  intros Hn Hty Hp. unfold insert_account.
  unfold bind at 1. rewrite (to_varchar_fits 50 number d Hn).
  unfold bind at 1.
  rewrite (to_varchar_fits 20 ty d (valid_account_type_length ty Hty)).
  unfold bind at 1. unfold to_decimal_15_2.
  destruct (Z.abs (round_cents p) <? 10 ^ 15); [|reflexivity].
  cbn [negb]. unfold ret at 1. unfold bind at 1. unfold get at 1.
  rewrite Hty. cbn [negb].
  unfold positive_balance. cbn [overdraft_limit balance new_account].
  replace (- 0 <=? round_cents p) with true
    by (symmetry; apply Z.leb_le; pose proof (round_cents_nonneg p Hp); lia).
  cbn [negb].
  destruct (negb (valid_account_number number)); [reflexivity|].
  destruct (existsb (fun a => acc_id a =? v_id) (accounts d)); [reflexivity|].
  destruct (existsb (fun a => (account_number a =? number)%string)
              (accounts d)); reflexivity.
Qed.

(** The INSERT of the initial deposit, the new account row [row] being the
    last of the table: the row is stored unless the cast amount is 0 or the
    reference is taken, and the AFTER trigger stamps the account. *)
Lemma insert_initial_deposit_run now u v_id p d rows row :
  accounts d = (rows ++ [row])%list ->
  ~ In v_id (map acc_id rows) ->
  acc_id row = v_id ->
  (- overdraft_limit row <= balance row) ->
  (Z.abs (round_cents p) <? 10 ^ 15) = true ->
  insert_transaction now (initial_deposit now u v_id p) d =
  let bal := round_cents p in
  let d2 := with_transactions_id_seq (transactions_id_seq d + 1) d in
  if negb (0 <? bal) then (Err (CheckViolation "positive_amount"), d2)
  else if existsb (fun t => reference_number t =? u) (transactions d)
  then (Err (UniqueViolation "transactions_reference_number_key"), d2)
  else (Ok (transactions_id_seq d),
        {| accounts :=
             rows ++ [update_updated_at_column now
                        (set_last_transaction_at (Some now) row)];
           transactions :=
             transactions d
             ++ [initial_deposit_row now u (transactions_id_seq d) v_id bal];
           account_limits := account_limits d;
           audit_logs := audit_logs d; alerts := alerts d;
           transactions_id_seq := transactions_id_seq d + 1;
           row_locks := row_locks d |}).
Proof.
  intros Hacc Hfresh Hid Hck Hfit. cbv zeta.
  unfold insert_transaction, next_transaction_id.
  unfold bind at 1. unfold bind at 1. unfold get at 1.
  unfold bind at 1. unfold modify at 1. unfold ret at 1.
  unfold to_decimal_15_2. cbn [ins_amount ins_balance_before
    ins_balance_after initial_deposit].
  rewrite Hfit. unfold bind at 1. unfold ret at 1.
  change (Z.abs (round_cents 0) <? 10 ^ 15) with true. cbv iota.
  unfold bind at 1. unfold ret at 1.
  unfold bind at 1. unfold ret at 1.
  cbn [ins_account_id ins_type ins_description ins_reference_number
       ins_status ins_related_transaction_id ins_related_account_id
       ins_ip_address ins_user_agent ins_created_at ins_completed_at
       initial_deposit].
  change (round_cents 0) with 0.
  fold (initial_deposit_row now u (transactions_id_seq d) v_id
          (round_cents p)).
  unfold bind at 1. unfold validate_transaction_amount at 1.
  cbn [tx_type initial_deposit_row]. unfold ret at 1.
  unfold bind at 1. unfold get at 1.
  unfold positive_amount. cbn [tx_amount initial_deposit_row].
  destruct (0 <? round_cents p); [|reflexivity]. cbn [negb].
  cbn [reference_number initial_deposit_row transactions
       with_transactions_id_seq].
  destruct (existsb (fun t => reference_number t =? u) (transactions d));
    [reflexivity|].
  unfold bind at 1. unfold modify at 1.
  unfold bind at 1. unfold update_last_transaction.
  cbn [tx_status initial_deposit_row tx_account_id completed_at].
  unfold bind at 1. rewrite update_accounts_run.
  cbn [accounts add_transaction with_transactions_id_seq].
  rewrite Hacc, filter_app, map_app.
  rewrite (filter_id_absent v_id rows Hfresh).
  rewrite (map_id_absent v_id _ rows Hfresh).
  cbn [filter map app]. rewrite Hid, Z.eqb_refl.
  cbn [forallb flat_map app].
  unfold positive_balance, log_balance_change.
  cbn [overdraft_limit balance update_updated_at_column
       set_last_transaction_at].
  replace (- overdraft_limit row <=? balance row) with true
    by (symmetry; now apply Z.leb_le).
  rewrite Z.eqb_refl. cbn [andb app].
  unfold ret. unfold add_audit_logs, with_accounts, add_transaction,
    with_transactions_id_seq. cbn. rewrite app_nil_r. reflexivity.
Qed.

(** create_account for a user of the table, an initial balance that is not
    negative, one of the three account types and the 14 digits of the
    timestamp: the statements that can still fail, in their order, and the
    database each failure is raised on. *)
Lemma create_account_run users now u stamp rnd v_id p_user_id ty p d :
  all_digits stamp = true -> String.length stamp = 14%nat ->
  In p_user_id users -> (0 <= p)%Q -> valid_account_type ty = true ->
  create_account users now u stamp rnd v_id p_user_id ty p d =
  let number := generated_account_number stamp rnd in
  let bal := round_cents p in
  let d1 :=
    with_transactions_id_seq (transactions_id_seq d + 1)
      (with_accounts
         (accounts d ++ [new_account now v_id p_user_id number bal]) d) in
  if negb (Z.abs bal <? 10 ^ 15) then (Err NumericOverflow, d)
  else if existsb (fun a => acc_id a =? v_id) (accounts d)
  then (Err (UniqueViolation "accounts_pkey"), d)
  else if existsb (fun a => (account_number a =? number)%string) (accounts d)
  then (Err (UniqueViolation "accounts_account_number_key"), d)
  else if numeric_ltb 0 p && negb (0 <? bal)
  then (Err (CheckViolation "positive_amount"), d1)
  else if numeric_ltb 0 p
          && existsb (fun t => reference_number t =? u) (transactions d)
  then (Err (UniqueViolation "transactions_reference_number_key"), d1)
  else (Ok {| created_account_id := v_id;
              created_account_number := number;
              created_balance := p;
              created_status := "active" |},
        created_db now u number v_id p_user_id ty p d).
Proof.
  intros Hd Hl Hu Hp Hty. cbv zeta.
  set (number := generated_account_number stamp rnd).
  assert (Hlen : (String.length number <= 50)%nat).
  { unfold number. rewrite generated_number_length. lia. }
  assert (Hnum : valid_account_number number = true).
  { apply generated_number_check; [exact Hd|lia]. }
  unfold create_account. unfold bind at 1.
  change (resolve_names create_account_variables users_columns
            ["id"; "p_user_id"] d) with (Ok tt, d).
  cbv iota beta.
  assert (Eu : existsb (fun i => i =? p_user_id) users = true).
  { apply existsb_exists. exists p_user_id. split; [exact Hu|].
    apply Z.eqb_refl. }
  rewrite Eu. cbn [negb].
  assert (En : numeric_ltb p 0 = false).
  { destruct (numeric_ltb p 0) eqn:E; [|reflexivity].
    apply numeric_ltb_spec in E. exfalso. exact (Qlt_not_le _ _ E Hp). }
  rewrite En. fold number.
  unfold bind at 1. rewrite (to_varchar_fits 50 number d Hlen).
  unfold bind at 1.
  change (resolve_names create_account_variables accounts_columns ["id"] d)
    with (Ok tt, d).
  cbv iota beta. unfold bind at 1.
  rewrite (insert_account_run now v_id p_user_id number ty p d Hlen Hty Hp).
  rewrite Hnum. cbn [negb].
  destruct (Z.abs (round_cents p) <? 10 ^ 15) eqn:Hfit; [|reflexivity].
  cbn [negb].
  destruct (existsb (fun a => acc_id a =? v_id) (accounts d)) eqn:Eid;
    [reflexivity|].
  destruct (existsb (fun a => (account_number a =? number)%string)
              (accounts d)); [reflexivity|].
  assert (Hfresh : ~ In v_id (map acc_id (accounts d))).
  { apply (existsb_false_not_in acc_id Z.eqb); [|exact Eid].
    intros x y. apply Z.eqb_eq. }
  pose proof (round_cents_nonneg p Hp) as Hbal.
  destruct (numeric_ltb 0 p) eqn:Epos; cbn [andb].
  - unfold bind at 1. unfold bind at 1.
    rewrite (insert_initial_deposit_run now u v_id p
               (with_accounts
                  (accounts d
                   ++ [new_account now v_id p_user_id number (round_cents p)])
                  d)
               (accounts d)
               (new_account now v_id p_user_id number (round_cents p))
               eq_refl Hfresh eq_refl);
      [|cbn [overdraft_limit balance new_account]; lia|exact Hfit].
    cbv zeta.
    destruct (0 <? round_cents p) eqn:Eb; [|reflexivity]. cbn [negb].
    cbn [transactions with_accounts].
    destruct (existsb (fun t => reference_number t =? u) (transactions d));
      [reflexivity|].
    unfold created_db, created_account_row. rewrite Eb. reflexivity.
  - assert (Ez : round_cents p = 0).
    { apply round_cents_zero; [exact Hp|].
      apply Qnot_lt_le. intros L. apply numeric_ltb_spec in L. congruence. }
    unfold created_db, created_account_row. rewrite Ez. reflexivity.
Qed.

Lemma bind_ok {A B} (m : M A) (k : A -> M B) d b d' :
  bind m k d = (Ok b, d') ->
  exists a d1, m d = (Ok a, d1) /\ k a d1 = (Ok b, d').
Proof.
  unfold bind. destruct (m d) as [[a|e] d1]; [eauto|discriminate].
Qed.

Lemma valid_account_type_short ty :
  valid_account_type ty = true -> (String.length ty <= 8)%nat.
Proof.
  unfold valid_account_type. intros H.
  apply orb_prop in H. destruct H as [H|H].
  - apply orb_prop in H.
    destruct H as [H|H]; apply String.eqb_eq in H; subst; simpl; lia.
  - apply String.eqb_eq in H. subst. simpl. lia.
Qed.

(** A type that passes the CHECK after the cast to VARCHAR(20) passed it
    before: the cast cuts nothing from a string of 8 characters. *)
Lemma to_varchar_valid_type ty ty' d d' :
  to_varchar 20 ty d = (Ok ty', d') ->
  valid_account_type ty' = true -> ty' = ty.
Proof.
  unfold to_varchar. intros H V.
  destruct (Nat.leb_spec (String.length ty) 20) as [L|L].
  - now injection H as <- _.
  - destruct (all_spaces _); [|discriminate].
    injection H as <- _.
    pose proof (valid_account_type_short _ V) as S.
    rewrite length_prefix in S by lia. lia.
Qed.

Lemma insert_account_ok now v_id p_user_id number ty p d i d' :
  insert_account now v_id p_user_id number ty p d = (Ok i, d') ->
  valid_account_type ty = true.
Proof.
  unfold insert_account. intros H.
  apply bind_ok in H. destruct H as (n' & d1 & _ & H).
  apply bind_ok in H. destruct H as (ty' & d2 & Hty & H).
  apply bind_ok in H. destruct H as (bal & d3 & _ & H).
  apply bind_ok in H. destruct H as (d4 & d5 & _ & H).
  destruct (valid_account_type ty') eqn:V; [|discriminate].
  now rewrite <- (to_varchar_valid_type ty ty' d1 d2 Hty V).
Qed.

(** What a call of create_account that returns had checked. *)
Lemma create_account_checks users now u stamp rnd v_id p_user_id ty p d r d' :
  create_account users now u stamp rnd v_id p_user_id ty p d = (Ok r, d') ->
  In p_user_id users /\ (0 <= p)%Q /\ valid_account_type ty = true.
Proof.
  unfold create_account. intros H.
  apply bind_ok in H. destruct H as (x & d0 & _ & H).
  destruct (existsb (fun i => i =? p_user_id) users) eqn:Eu; [|discriminate].
  cbn [negb] in H.
  destruct (numeric_ltb p 0) eqn:En; [discriminate|].
  apply bind_ok in H. destruct H as (n' & d1 & _ & H).
  apply bind_ok in H. destruct H as (y & d2 & _ & H).
  apply bind_ok in H. destruct H as (i & d3 & Hi & _).
  split; [|split].
  - apply existsb_exists in Eu. destruct Eu as (j & Hj & Ej).
    apply Z.eqb_eq in Ej. now subst j.
  - apply Qnot_lt_le. intros L. apply numeric_ltb_spec in L. congruence.
  - exact (insert_account_ok _ _ _ _ _ _ _ _ _ Hi).
Qed.

(** ** What create_account checks and what it writes *)


Lemma reference_taken_spec (u : uuid) (ts : list transaction) :
  existsb (fun t => reference_number t =? u) ts = false
  <-> ~ In u (map reference_number ts).
Proof.
  split.
  - apply (existsb_false_not_in reference_number Z.eqb).
    intros x y. apply Z.eqb_eq.
  - apply (not_in_existsb_false reference_number Z.eqb).
    intros x y. apply Z.eqb_eq.
Qed.

(** For the 14 digits of the timestamp, create_account returns exactly when
    [create_account_accepts] holds, and what it returns and leaves is
    this. *)
Lemma create_account_returns users now u stamp rnd v_id p_user_id ty p d :
  all_digits stamp = true -> String.length stamp = 14%nat ->
  (create_account_accepts users u (generated_account_number stamp rnd) v_id
     p_user_id ty p d ->
   create_account users now u stamp rnd v_id p_user_id ty p d
   = (Ok {| created_account_id := v_id;
            created_account_number := generated_account_number stamp rnd;
            created_balance := p;
            created_status := "active" |},
      created_db now u (generated_account_number stamp rnd) v_id p_user_id
        ty p d))
  /\ (forall r d',
        create_account users now u stamp rnd v_id p_user_id ty p d
        = (Ok r, d') ->
        create_account_accepts users u (generated_account_number stamp rnd)
          v_id p_user_id ty p d).
Proof.
  intros Hd Hl. split.
  - intros (Hu & Hp & Hty & Hfit & Hid & Hnum & Hdep).
    rewrite (create_account_run users now u stamp rnd v_id p_user_id ty p d
               Hd Hl Hu Hp Hty). cbv zeta.
    replace (Z.abs (round_cents p) <? 10 ^ 15) with true
      by (symmetry; now apply Z.ltb_lt).
    cbn [negb].
    rewrite (not_in_existsb_false acc_id Z.eqb (accounts d) v_id)
      by (try exact Hid; intros x y; apply Z.eqb_eq).
    rewrite (not_in_existsb_false account_number String.eqb (accounts d)
               (generated_account_number stamp rnd))
      by (try exact Hnum; intros x y; apply String.eqb_eq).
    destruct (numeric_ltb 0 p) eqn:Epos; cbn [andb]; [|reflexivity].
    apply numeric_ltb_spec in Epos. destruct (Hdep Epos) as [Hb Hr].
    replace (0 <? round_cents p) with true
      by (symmetry; now apply Z.ltb_lt).
    cbn [negb]. apply reference_taken_spec in Hr. now rewrite Hr.
  - intros r d' H.
    destruct (create_account_checks _ _ _ _ _ _ _ _ _ _ _ _ H)
      as (Hu & Hp & Hty).
    rewrite (create_account_run users now u stamp rnd v_id p_user_id ty p d
               Hd Hl Hu Hp Hty) in H. cbv zeta in H.
    destruct (Z.ltb_spec (Z.abs (round_cents p)) (10 ^ 15)) as [Hfit|Hfit];
      [|discriminate]. cbn [negb] in H.
    destruct (existsb (fun a => acc_id a =? v_id) (accounts d)) eqn:Eid;
      [discriminate|].
    destruct (existsb (fun a => (account_number a =? _)%string) (accounts d))
      eqn:En; [discriminate|].
    repeat split; try assumption.
    + apply (existsb_false_not_in acc_id Z.eqb); [|exact Eid].
      intros x y. apply Z.eqb_eq.
    + apply (existsb_false_not_in account_number String.eqb); [|exact En].
      intros x y. apply String.eqb_eq.
    + apply numeric_ltb_spec in H0. rewrite H0 in H. cbn [andb] in H.
      destruct (Z.ltb_spec 0 (round_cents p)); [assumption|discriminate].
    + apply numeric_ltb_spec in H0. rewrite H0 in H. cbn [andb] in H.
      destruct (0 <? round_cents p); [|discriminate]. cbn [negb] in H.
      destruct (existsb (fun t => reference_number t =? u) (transactions d))
        eqn:Er; [discriminate|].
      now apply reference_taken_spec.
Qed.

Lemma created_account_row_columns now v_id p_user_id number bal :
  let a := created_account_row now v_id p_user_id number bal in
  acc_id a = v_id /\ acc_user_id a = p_user_id /\ account_number a = number
  /\ balance a = bal /\ acc_status a = active /\ overdraft_limit a = 0
  /\ closed_at a = None
  /\ last_transaction_at a = if 0 <? bal then Some now else None.
Proof.
  unfold created_account_row. destruct (0 <? bal); simpl; repeat split.
Qed.


(** ** An initial balance below half a cent *)

Lemma round_cents_small (x : numeric) :
  (0 < x)%Q -> (x < 0.005)%Q -> round_cents x = 0.
Proof.
  intros H1 H2. unfold Qlt in H1, H2. cbn [Qnum Qden] in H1, H2.
  rewrite Z.mul_0_l, Z.mul_1_r in H1.
  unfold round_cents. cbv zeta.
  rewrite Z.div_small; [apply Z.mul_0_r|].
  rewrite Z.abs_eq by lia. lia.
Qed.

(** A positive initial balance of less than half a cent passes the
    function's own test, is cast to 0.00 in the account row, and breaks
    CHECK positive_amount in the initial deposit: the call fails after the
    account row was inserted, and the statement that made the call leaves
    every table as it was. *)
Theorem create_account_rejects_sub_cent users now u stamp rnd v_id p_user_id
    ty p d :
  all_digits stamp = true -> String.length stamp = 14%nat ->
  In p_user_id users -> valid_account_type ty = true ->
  (0 < p)%Q -> (p < 0.005)%Q ->
  ~ In v_id (map acc_id (accounts d)) ->
  ~ In (generated_account_number stamp rnd)
      (map account_number (accounts d)) ->
  exists d1,
    create_account users now u stamp rnd v_id p_user_id ty p d
    = (Err (CheckViolation "positive_amount"), d1)
    /\ accounts d1
       = (accounts d
          ++ [new_account now v_id p_user_id
                (generated_account_number stamp rnd) 0])%list
    /\ fst (atomically
              (create_account users now u stamp rnd v_id p_user_id ty p) d)
       = Err (CheckViolation "positive_amount")
    /\ same_tables d
         (snd (atomically
                 (create_account users now u stamp rnd v_id p_user_id ty p)
                 d)).
Proof.
  intros Hd Hl Hu Hty Hpos Hsmall Hid Hnum.
  pose proof (round_cents_small p Hpos Hsmall) as Ez.
  assert (Hp : (0 <= p)%Q) by now apply Qlt_le_weak.
  assert (E : create_account users now u stamp rnd v_id p_user_id ty p d
              = (Err (CheckViolation "positive_amount"),
                 with_transactions_id_seq (transactions_id_seq d + 1)
                   (with_accounts
                      (accounts d
                       ++ [new_account now v_id p_user_id
                             (generated_account_number stamp rnd) 0]) d))).
  { rewrite (create_account_run users now u stamp rnd v_id p_user_id ty p d
               Hd Hl Hu Hp Hty). cbv zeta. rewrite Ez.
    change (negb (Z.abs 0 <? 10 ^ 15)) with false. cbv iota.
    rewrite (not_in_existsb_false acc_id Z.eqb (accounts d) v_id)
      by (try exact Hid; intros x y; apply Z.eqb_eq).
    rewrite (not_in_existsb_false account_number String.eqb (accounts d)
               (generated_account_number stamp rnd))
      by (try exact Hnum; intros x y; apply String.eqb_eq).
    apply numeric_ltb_spec in Hpos. rewrite Hpos. reflexivity. }
  eexists. split; [exact E|]. split; [reflexivity|].
  unfold atomically. rewrite E. cbn [fst snd].
  split; [reflexivity|repeat split].
Qed.

(** ** The invariants across create_account *)

(** A create_account that returns keeps the constraints of the accounts
    table (primary key, CHECK positive_balance, UNIQUE account_number) and
    leaves every Limit Entry within its cap. *)
Theorem create_account_keeps_invariants users now u stamp rnd v_id p_user_id
    ty p d r d' :
  all_digits stamp = true -> String.length stamp = 14%nat ->
  consistent d -> numbers_unique d -> within_caps d ->
  create_account users now u stamp rnd v_id p_user_id ty p d = (Ok r, d') ->
  consistent d' /\ numbers_unique d' /\ within_caps d'.
Proof.
  intros Hd Hl [Hpk Hck] Hnu Hw H.
  destruct (create_account_returns users now u stamp rnd v_id p_user_id ty p
              d Hd Hl) as [Hto Hfrom].
  pose proof (Hfrom r d' H) as A. rewrite (Hto A) in H.
  injection H as <- <-.
  destruct A as (Hu & Hp & Hty & Hfit & Hid & Hnum & Hdep).
  pose proof (created_account_row_columns now v_id p_user_id
                (generated_account_number stamp rnd) (round_cents p)) as C.
  cbv zeta in C.
  destruct C as (C1 & C2 & C3 & C4 & C5 & C6 & _).
  pose proof (round_cents_nonneg p Hp) as Hb.
  split; [split|split].
  - unfold primary_key. cbn [accounts created_db]. rewrite map_app.
    cbn [map]. rewrite C1.
    apply NoDup_app; [exact Hpk|repeat constructor; simpl; tauto|].
    intros i Hi [<-|[]]. exact (Hid Hi).
  - intros a Ha. cbn [accounts created_db] in Ha. apply in_app_or in Ha.
    destruct Ha as [Ha|[<-|[]]]; [now apply Hck|]. rewrite C4, C6. lia.
  - unfold numbers_unique. cbn [accounts created_db]. rewrite map_app.
    cbn [map]. rewrite C3.
    apply NoDup_app; [exact Hnu|repeat constructor; simpl; tauto|].
    intros i Hi [<-|[]]. exact (Hnum Hi).
  - intros l Hl0. cbn [account_limits created_db] in Hl0.
    apply in_app_or in Hl0. destruct Hl0 as [Hl0|Hl0]; [now apply Hw|].
    simpl in Hl0. destruct Hl0 as [<-|[<-|[<-|[]]]]; simpl; lia.
Qed.

(** ** The further properties at work on sample data *)

Lemma sample_db_numbers_unique : numbers_unique sample_db.
Proof.
  unfold numbers_unique. simpl.
  repeat constructor; simpl; intuition discriminate.
Qed.

Lemma reset_daily_limits_idempotent_witness :
  exists d',
    reset_daily_limits 10 sample_db = (Ok 1, d')
    /\ reset_daily_limits 10 d' = (Ok 0, d').
Proof.
  eexists. split; [reflexivity|].
  exact (proj1 (reset_daily_limits_idempotent 10 sample_db _ _ eq_refl)).
Defined.

Lemma close_account_effect_witness :
  exists d' e,
    close_account 10 "KB0000000003" "moving" sample_db = (Ok true, d')
    /\ audit_logs d' = [e] /\ action e = "account_closed"
    /\ transactions d' = [].
Proof.
  assert (E : close_account 10 "KB0000000003" "moving" sample_db
              = (Ok true,
                 closed_db 10 (sample_account 3 "KB0000000003" 0 0) "moving"
                   sample_db)) by reflexivity.
  destruct (close_account_effect 10 "KB0000000003" "moving" sample_db _ _
              sample_db_consistent E)
    as (a & h & e & _ & _ & _ & _ & _ & _ & _ & _ & _ & _ & _ & _ & T & _
        & _ & L & A & _).
  exists (closed_db 10 (sample_account 3 "KB0000000003" 0 0) "moving"
            sample_db), e.
  split; [exact E|]. split; [exact L|]. split; [exact A|exact T].
Defined.

Lemma closed_account_is_terminal_witness :
  exists d',
    close_account 10 "KB0000000003" "moving" sample_db = (Ok true, d')
    /\ close_account 11 "KB0000000003" "again" d' = (Err AccountNotFound, d')
    /\ get_account_balance "KB0000000003" d' = (Err AccountNotFound, d').
Proof.
  assert (E : close_account 10 "KB0000000003" "moving" sample_db
              = (Ok true,
                 closed_db 10 (sample_account 3 "KB0000000003" 0 0) "moving"
                   sample_db)) by reflexivity.
  exists (closed_db 10 (sample_account 3 "KB0000000003" 0 0) "moving"
            sample_db).
  split; [exact E|].
  destruct (closed_account_is_terminal 10 "KB0000000003" "moving" sample_db
              _ _ sample_db_consistent sample_db_numbers_unique E)
    as (C & G & _).
  split; [exact (C 11 "again")|exact G].
Defined.

(** A withdrawal row of 10.00 for the sample account that holds 500.00. *)
Lemma debit_rows_are_refused_witness :
  exists d',
    insert_transaction 10
      {| ins_account_id := 2; ins_type := withdrawal; ins_amount := 10;
         ins_balance_before := 500; ins_balance_after := 490;
         ins_description := "atm"; ins_reference_number := 77;
         ins_status := completed; ins_related_transaction_id := None;
         ins_related_account_id := None; ins_ip_address := None;
         ins_user_agent := None; ins_created_at := 10;
         ins_completed_at := Some 10 |} sample_db
    = (Err (AmbiguousColumn "overdraft_limit"), d')
    /\ transactions d' = [] /\ transactions_id_seq d' = 2.
Proof.
  destruct (debit_rows_are_refused 10
              {| ins_account_id := 2; ins_type := withdrawal;
                 ins_amount := 10; ins_balance_before := 500;
                 ins_balance_after := 490; ins_description := "atm";
                 ins_reference_number := 77; ins_status := completed;
                 ins_related_transaction_id := None;
                 ins_related_account_id := None; ins_ip_address := None;
                 ins_user_agent := None; ins_created_at := 10;
                 ins_completed_at := Some 10 |} sample_db
              (or_introl eq_refl))
    as (e & d' & E & (_ & T & _) & _ & F).
  destruct (F eq_refl eq_refl eq_refl) as [-> S].
  exists d'. split; [exact E|]. split; [exact T|exact S].
Defined.

Lemma generated_account_number_is_valid_witness :
  generated_account_number "20250125120000" 42 = "KB202501251200000042"
  /\ valid_account_number (generated_account_number "20250125120000" 42)
     = true.
Proof.
  split; [reflexivity|].
  exact (proj1 (generated_account_number_is_valid "20250125120000" 42
                  eq_refl ltac:(simpl; lia))).
Defined.


Lemma sample_create_account_accepts :
  create_account_accepts [101; 102; 103] 77
    (generated_account_number "20250125120000" 42) 4 101 "checking" 1000.005
    sample_db.
Proof.
  split; [simpl; tauto|]. split; [discriminate|]. split; [reflexivity|].
  split; [reflexivity|]. split; [simpl; intuition discriminate|].
  split; [simpl; intuition discriminate|].
  intros _. split; [reflexivity|simpl; tauto].
Qed.


Lemma create_account_rejects_sub_cent_witness :
  fst (atomically
         (create_account [101; 102; 103] 10 77 "20250125120000" 42 4 101
            "checking" 0.004) sample_db)
  = Err (CheckViolation "positive_amount")
  /\ accounts
       (snd (atomically
               (create_account [101; 102; 103] 10 77 "20250125120000" 42 4
                  101 "checking" 0.004) sample_db))
     = accounts sample_db.
Proof.
  destruct (create_account_rejects_sub_cent [101; 102; 103] 10 77
              "20250125120000" 42 4 101 "checking" 0.004 sample_db)
    as (d1 & _ & _ & F & (A & _)).
  - reflexivity.
  - reflexivity.
  - simpl. tauto.
  - reflexivity.
  - reflexivity.
  - reflexivity.
  - simpl. intuition discriminate.
  - simpl. intuition discriminate.
  - split; [exact F|exact A].
Defined.

Lemma create_account_keeps_invariants_witness :
  exists r d',
    create_account [101; 102; 103] 10 77 "20250125120000" 42 4 101 "checking"
      1000.005 sample_db
    = (Ok r, d')
    /\ consistent d' /\ numbers_unique d' /\ within_caps d'.
Proof.
  pose proof (proj1 (create_account_returns [101; 102; 103] 10 77
                       "20250125120000" 42 4 101 "checking" 1000.005
                       sample_db eq_refl eq_refl)
                sample_create_account_accepts) as E.
  eexists. eexists. split; [exact E|].
  exact (create_account_keeps_invariants [101; 102; 103] 10 77
           "20250125120000" 42 4 101 "checking" 1000.005 sample_db _ _
           eq_refl eq_refl sample_db_consistent sample_db_numbers_unique
           sample_db_within_caps E).
Defined.
